(** * OpenClaw MCP server: the JSON-RPC bridge and its tools

    A shallow embedding of the two server programs of the repository,

    - the hand-written Streamable HTTP server ([authenticate],
      [sendToOpenClaw], [searchMemory], [listSessions], [handleRequest]
      and the [POST /mcp] route), and
    - [server-mcp.js], the variant built on the MCP SDK (its
      [authenticate] and its [CallToolRequestSchema] handler; the helper
      functions are textually the same in both files),

    followed by the properties of the dispatcher, of the authenticator and
    of the three tools.

    JavaScript values are an inductive type, strings are [string] (the
    UTF-8 bytes of the text), the process-wide state (session map, spawned
    processes, console) is threaded through a small state-and-exception
    monad, and everything the program asks of its host (the file system,
    the spawned agent, [randomUUID], [toLowerCase], [path.join]) is a
    parameter of the development. *)

From Stdlib Require Import ZArith String Ascii List Bool Lia DecimalString.
From stdpp Require Import base strings gmap list.

Import ListNotations.
#[local] Set Warnings "-register-all".
Local Open Scope string_scope.
Local Open Scope list_scope.

(* ===================================================================== *)
(** ** Strings *)
(* ===================================================================== *)

(** The characters the sources write with an escape. *)
Definition DQUOTE : ascii := ascii_of_nat 34.
Definition LF : ascii := ascii_of_nat 10.
Definition BACKSLASH : ascii := ascii_of_nat 92.

Definition str (c : ascii) : string := String c EmptyString.

(** [s.startsWith(p)] *)
Definition startsWith (s p : string) : bool := String.prefix p s.

(** [s.substring(n)]: the text from index [n] on. *)
Fixpoint substring_from (n : nat) (s : string) : string :=
  match n, s with
  | O, _ => s
  | S _, EmptyString => EmptyString
  | S n', String _ t => substring_from n' t
  end.

(** [s.includes(needle)] *)
Fixpoint includes (s needle : string) : bool :=
  String.prefix needle s
  || match s with
     | EmptyString => false
     | String _ t => includes t needle
     end.

(** [s.split(sep)] for a one-character separator: never the empty array. *)
Fixpoint split (sep : ascii) (s : string) : list string :=
  match s with
  | EmptyString => [EmptyString]
  | String c t =>
      if Ascii.eqb c sep then EmptyString :: split sep t
      else match split sep t with
           | [] => [str c]
           | h :: r => String c h :: r
           end
  end.

(** [arr.join(sep)] on an array of strings. *)
Definition join (sep : string) (arr : list string) : string :=
  String.concat sep arr.

(** [s.replace(/c/g, by)] for a one-character pattern [c] and a
    replacement text without [$]. *)
Fixpoint replace_all (c : ascii) (by_ : string) (s : string) : string :=
  match s with
  | EmptyString => EmptyString
  | String a t =>
      (if Ascii.eqb a c then by_ else str a) +:+ replace_all c by_ t
  end.

Definition string_rev (s : string) : string :=
  string_of_list_ascii (rev (list_ascii_of_string s)).

Definition bytes (l : list nat) : string :=
  string_of_list_ascii (List.map ascii_of_nat l).

(** ECMAScript's WhiteSpace and LineTerminator code points, each as its
    UTF-8 encoding: what [trim] removes and what [\s] matches. *)
Definition WHITE_SPACE : list string :=
  List.map bytes
    [ [9]; [10]; [11]; [12]; [13]; [32];
      [194; 160];
      [225; 154; 128];
      [226; 128; 128]; [226; 128; 129]; [226; 128; 130]; [226; 128; 131];
      [226; 128; 132]; [226; 128; 133]; [226; 128; 134]; [226; 128; 135];
      [226; 128; 136]; [226; 128; 137]; [226; 128; 138];
      [226; 128; 168]; [226; 128; 169]; [226; 128; 175];
      [226; 129; 159];
      [227; 128; 128];
      [239; 187; 191] ].

(** Removes one leading code point of [table] from [s], if there is one. *)
Fixpoint strip_one (table : list string) (s : string) : option string :=
  match table with
  | [] => None
  | ws :: rest =>
      if String.prefix ws s then Some (substring_from (String.length ws) s)
      else strip_one rest s
  end.

Fixpoint strip_leading (fuel : nat) (table : list string) (s : string) : string :=
  match fuel with
  | O => s
  | S fuel' =>
      match strip_one table s with
      | Some s' => strip_leading fuel' table s'
      | None => s
      end
  end.

Definition trimStart (s : string) : string :=
  strip_leading (String.length s) WHITE_SPACE s.

Definition trimEnd (s : string) : string :=
  string_rev (strip_leading (String.length s) (List.map string_rev WHITE_SPACE)
                            (string_rev s)).

(** [s.trim()] *)
Definition trim (s : string) : string := trimEnd (trimStart s).

(** [s.replace(/\s+/g, by)]: every maximal run of white space becomes [by]. *)
Fixpoint replace_ws_runs (fuel : nat) (by_ : string) (s : string) : string :=
  match fuel with
  | O => s
  | S fuel' =>
      match strip_one WHITE_SPACE s with
      | Some s' => by_ +:+ replace_ws_runs fuel' by_ (trimStart s')
      | None =>
          match s with
          | EmptyString => EmptyString
          | String c t => String c (replace_ws_runs fuel' by_ t)
          end
      end
  end.

(** Decimal numerals, as [Number.prototype.toString] prints integers. *)
Definition nat_to_string (n : nat) : string :=
  NilZero.string_of_uint (Nat.to_uint n).

Definition Z_to_string (z : Z) : string :=
  NilZero.string_of_int (Z.to_int z).

(* ===================================================================== *)
(** ** JavaScript values *)
(* ===================================================================== *)

(** What [JSON.parse] produces and [res.json] sends, plus [undefined].
    Numbers are the integral ones, each by its value; how a number prints
    is the host's business.  An object is its list of own properties in
    insertion order; an object literal or a parsed body has each key
    once. *)
Inductive value : Type :=
| VUndefined
| VNull
| VBool (b : bool)
| VNum (n : Z)
| VStr (s : string)
| VArr (items : list value)
| VObj (fields : list (string * value)).

Fixpoint lookup_field (k : string) (fields : list (string * value)) : value :=
  match fields with
  | [] => VUndefined
  | (k', v) :: rest => if String.eqb k k' then v else lookup_field k rest
  end.

(** [v.k] for a [v] that is neither [null] nor [undefined], and [v?.k]
    for any [v]: none of the keys the servers read is a property of an
    array, a string, a number or a boolean, so only objects answer.  The
    servers read [.k] only behind [|| {}]. *)
Definition prop (v : value) (k : string) : value :=
  match v with
  | VObj fields => lookup_field k fields
  | _ => VUndefined
  end.

(** ToBoolean *)
Definition truthy (v : value) : bool :=
  match v with
  | VUndefined | VNull => false
  | VBool b => b
  | VNum n => negb (Z.eqb n 0)
  | VStr s => negb (String.eqb s EmptyString)
  | VArr _ | VObj _ => true
  end.

(** [a || b] *)
Definition or_else (a b : value) : value := if truthy a then a else b.

(** [v === "lit"], also the test of [case "lit":] in a [switch (v)]. *)
Definition is_string (v : value) (lit : string) : bool :=
  match v with
  | VStr s => String.eqb s lit
  | _ => false
  end.

(** [Object.hasOwn(o, k)] on the properties of an object. *)
Definition has_own (fields : list (string * value)) (k : string) : bool :=
  existsb (fun kv => String.eqb (fst kv) k) fields.

(** Object and array literals of the sources. *)
Definition text_block (text : string) : value :=
  VObj [("type", VStr "text"); ("text", VStr text)].

(* ===================================================================== *)
(** ** Errors, the host and the process state *)
(* ===================================================================== *)

(** A thrown [Error] object; only its [message] is ever read. *)
Inductive JsError : Type :=
| Error (msg : string)
| TypeError (msg : string).

Definition error_message (e : JsError) : string :=
  match e with Error m | TypeError m => m end.

(** What V8 says when an object has no usable [toString] or [valueOf]. *)
Definition CANNOT_CONVERT : JsError :=
  TypeError "Cannot convert object to primitive value".

(** How an [await] ends: with a value, with an exception, or never (a
    promise that nothing settles). *)
Inductive outcome (A : Type) : Type :=
| Return (a : A)
| Throw (e : JsError)
| Pending.
Arguments Return {A} a.
Arguments Throw {A} e.
Arguments Pending {A}.

(** [Array.prototype.join] with the separator [","], over the conversion
    [conv] of an element: the elements are converted in order, and the
    first failure is the failure of the whole; [sep] goes before the first
    element. *)
Definition join_with (conv : value -> outcome string) :
    string -> list value -> outcome string :=
  fix join_from (sep : string) (l : list value) : outcome string :=
    match l with
    | [] => Return EmptyString
    | x :: rest =>
        match conv x with
        | Return text =>
            match join_from "," rest with
            | Return more => Return (sep +:+ text +:+ more)
            | failed => failed
            end
        | failed => failed
        end
    end.

(** What a call of [spawn] goes on to do, in order, as the promise around
    it sees it: chunks on the two pipes, ['close'] with the exit code
    ([None] is JavaScript's [null], a process ended by a signal),
    ['error'] with the error's message, and, as the first thing only,
    [spawn] itself throwing [ERR_INVALID_ARG_VALUE] before anything is
    started (an argument with a NUL byte), whose message is ["The
    argument "] followed by the detail. *)
Inductive ProcEvent : Type :=
| StdoutData (chunk : string)
| StderrData (chunk : string)
| Close (code : option Z)
| ErrorEvent (msg : string)
| InvalidArg (detail : string).

(** The [config] object, read from the environment when the process starts. *)
Record Config : Type := {
  botName : string;
  sessionLabel : string;
  apiKey : string;
  port : Z;
  bindAddress : string;
  workspace : string
}.

(** The host: library functions and the outside world. *)
Record Host : Type := {
  toLowerCase : string -> string;                    (* String.prototype.toLowerCase *)
  path_join : string -> string -> string;            (* path.join *)
  existsSync : string -> bool;                       (* fs.existsSync *)
  readFileSync : string -> string + JsError;         (* fs.readFileSync(p, "utf-8") *)
  child_process : string -> list string -> list ProcEvent;
                                                     (* what spawn(cmd, args) goes on to do *)
  randomUUID : nat -> string;                        (* the n-th identifier drawn *)
  Number_toString : Z -> string                      (* Number.prototype.toString *)
}.

(** Lines written by [console.log] and [console.error], by call site,
    with the texts their template literals were filled with. *)
Inductive LogEntry : Type :=
| LogPost (method id : string)           (* [MCP] POST request - method: .., id: .. *)
| LogHandling (method : string)          (* [MCP] Handling method: .. *)
| LogCallingTool (toolName : string) (toolArgs : value)  (* [MCP] Calling tool: .. *)
| LogSending (message : string)          (* [MCP] Sending to OpenClaw: .. *)
| LogResponseReceived                    (* [MCP] OpenClaw response received *)
| LogToolError (e : JsError)             (* [MCP] Tool error: *)
| LogError (e : JsError).                (* [MCP] Error: *)

(** The state of the running process: the [sessions] map, how many UUIDs
    were drawn, the calls of [spawn] made so far (command and argument
    vector, oldest first) and the console. *)
Record World : Type := {
  sessions : gmap string value;
  uuidsDrawn : nat;
  spawned : list (string * list string);
  console : list LogEntry
}.

Definition initial_world : World :=
  {| sessions := ∅; uuidsDrawn := 0; spawned := []; console := [] |}.

(** *** The monad of the handlers *)

Definition M (A : Type) : Type := World -> outcome A * World.

Definition ret {A} (a : A) : M A := fun w => (Return a, w).

Definition throw {A} (e : JsError) : M A := fun w => (Throw e, w).

Definition bind {A B} (m : M A) (k : A -> M B) : M B :=
  fun w =>
    match m w with
    | (Return a, w') => k a w'
    | (Throw e, w') => (Throw e, w')
    | (Pending, w') => (Pending, w')
    end.

(** [try { body } catch (error) { handler }] *)
Definition try_catch {A} (body : M A) (handler : JsError -> M A) : M A :=
  fun w =>
    match body w with
    | (Throw e, w') => handler e w'
    | r => r
    end.

(** [await p] for a promise that ends as [o]. *)
Definition await {A} (o : outcome A) : M A := fun w => (o, w).

Notation "'let*' x ':=' m 'in' k" := (bind m (fun x => k))
  (at level 10, x name, m at level 100, k at level 200).
Notation "m '>>' k" := (bind m (fun _ => k))
  (at level 90, right associativity).

Definition console_log (e : LogEntry) : M unit :=
  fun w => (Return tt,
            {| sessions := sessions w; uuidsDrawn := uuidsDrawn w;
               spawned := spawned w; console := console w ++ [e] |}).

Definition sessions_set (k : string) (v : value) : M unit :=
  fun w => (Return tt,
            {| sessions := <[k := v]> (sessions w); uuidsDrawn := uuidsDrawn w;
               spawned := spawned w; console := console w |}).

(** Express: what a route sends.  [res.status(c).json(v)] is
    [send_json c v], [res.json(v)] is [send_json 200 v] and
    [res.status(c).end()] is [send_end c]. *)
Record Response : Type := { status : Z; payload : option value }.

Definition send_json (code : Z) (v : value) : Response :=
  {| status := code; payload := Some v |}.
Definition send_end (code : Z) : Response :=
  {| status := code; payload := None |}.

(** The parts of an incoming request the routes read:
    [req.headers.authorization] ([None] when the header is absent) and
    [req.body] as [express.json()] leaves it: the parsed object or array,
    and without a JSON body an empty object (Express 4) or [undefined]
    (Express 5). *)
Record Request : Type := { authorization : option string; body : value }.

(* ===================================================================== *)
(** ** The servers *)
(* ===================================================================== *)

Section Server.

Variable config : Config.
Variable host : Host.

(** *** Shared by both files *)

(** ToString, as a template literal applies it.  An object converts
    through its [toString]: a parsed object inherits the one that prints
    ["[object Object]"] unless it has a property of that name, which is
    never a function and leaves nothing to convert with; an array joins
    the conversions of its elements, [null] and [undefined] as nothing. *)
Fixpoint ToString (v : value) : outcome string :=
  match v with
  | VUndefined => Return "undefined"
  | VNull => Return "null"
  | VBool true => Return "true"
  | VBool false => Return "false"
  | VNum n => Return (Number_toString host n)
  | VStr s => Return s
  | VArr items =>
      join_with
        (fun x => match x with
                  | VUndefined | VNull => Return EmptyString
                  | _ => ToString x
                  end)
        EmptyString items
  | VObj fields =>
      if has_own fields "toString" then Throw CANNOT_CONVERT
      else Return "[object Object]"
  end.

(** The value of a template literal's [${v}]. *)
Definition format (v : value) : M string := await (ToString v).

(** The listeners both [sendToOpenClaw] and [listSessions] install on the
    child process, run over what it emits: the two buffers grow, and the
    first ['close'] or ['error'] settles the promise (a settled promise
    ignores later calls of [resolve] and [reject]). *)
Fixpoint settle (events : list ProcEvent) (stdout stderr : string) : outcome string :=
  match events with
  | [] => Pending
  | StdoutData data :: rest => settle rest (stdout +:+ data) stderr
  | StderrData data :: rest => settle rest stdout (stderr +:+ data)
  | Close code :: _ =>
      match code with
      | Some 0%Z => Return (trim stdout)
      | Some c =>
          Throw (Error ("OpenClaw exited with code " +:+ Z_to_string c
                        +:+ ": " +:+ stderr))
      | None =>
          Throw (Error ("OpenClaw exited with code null: " +:+ stderr))
      end
  | ErrorEvent msg :: _ =>
      Throw (Error ("Failed to spawn openclaw: " +:+ msg))
  | InvalidArg detail :: _ =>
      Throw (TypeError ("The argument " +:+ detail))
  end.

(** The call of [spawn] itself, on record whatever comes of it. *)
Definition start_process (cmd : string) (args : list string) : M unit :=
  fun w =>
    (Return tt,
     {| sessions := sessions w; uuidsDrawn := uuidsDrawn w;
        spawned := spawned w ++ [(cmd, args)]; console := console w |}).

(** [spawn(cmd, args)] with those listeners, awaited. *)
Definition spawn (cmd : string) (args : list string) : M string :=
  start_process cmd args >>
  await (settle (child_process host cmd args) EmptyString EmptyString).

(** [randomUUID()] *)
Definition draw_uuid : M string :=
  fun w =>
    (Return (randomUUID host (uuidsDrawn w)),
     {| sessions := sessions w; uuidsDrawn := S (uuidsDrawn w);
        spawned := spawned w; console := console w |}).

(** [message.replace(/"/g, '\\"')] *)
Definition escape_quotes (message : string) : string :=
  replace_all DQUOTE (str BACKSLASH +:+ str DQUOTE) message.

(** [sendToOpenClaw(message, timeout = 120)], awaited.  [message.replace]
    exists on strings only; a throw inside the promise's executor rejects
    the promise. *)
Definition sendToOpenClaw (message : value) (timeout : Z) : M string :=
  match message with
  | VStr m =>
      let escapedMessage := escape_quotes m in
      spawn "openclaw"
        ["sessions"; "send";
         "--label"; sessionLabel config;
         "--message"; escapedMessage;
         "--timeout"; Z_to_string timeout]
  | _ => throw (TypeError "message.replace is not a function")
  end.

Definition NOT_FOUND_TEXT : string := "MEMORY.md não encontrado no workspace".

Definition no_result_text (query : string) : string :=
  "Nenhum resultado encontrado para " +:+ str DQUOTE +:+ query +:+ str DQUOTE
  +:+ " na memória.".

Definition found_text (count : nat) (shown : list string) : string :=
  "Encontrados " +:+ nat_to_string count +:+ " resultados:" +:+ str LF +:+ str LF
  +:+ join (str LF) shown.

(** The callback of [lines.filter] in [searchMemory]. *)
Definition line_matches (query line : string) : bool :=
  includes (toLowerCase host line) (toLowerCase host query).

(** [searchMemory(query)].  [split] never returns the empty array, so the
    filter's callback runs, and [query.toLowerCase] exists on strings
    only. *)
Definition searchMemory (query : value) : M string :=
  let memoryPath := path_join host (workspace config) "MEMORY.md" in
  if negb (existsSync host memoryPath) then ret NOT_FOUND_TEXT
  else
    match readFileSync host memoryPath with
    | inr e => throw e
    | inl memoryContent =>
        let lines := split LF memoryContent in
        match query with
        | VStr q =>
            let matches := List.filter (line_matches q) lines in
            if Nat.eqb (List.length matches) 0 then ret (no_result_text q)
            else ret (found_text (List.length matches) (firstn 10 matches))
        | _ => throw (TypeError "query.toLowerCase is not a function")
        end
    end.

(** [listSessions()], awaited. *)
Definition listSessions : M string :=
  spawn "openclaw" ["sessions"; "list"; "--limit"; "10"].

(** [result || "Success"] on a string. *)
Definition or_success (result : string) : string :=
  if String.eqb result EmptyString then "Success" else result.

(** *** The hand-written Streamable HTTP server *)

Definition SERVER_INFO : value :=
  VObj [("name",
         VStr (replace_ws_runs (String.length (toLowerCase host (botName config)))
                 "-" (toLowerCase host (botName config))
               +:+ "-mcp-server"));
        ("version", VStr "1.0.0")].

Definition SERVER_CAPABILITIES : value := VObj [("tools", VObj [])].

Definition TOOLS : value :=
  VArr
    [ VObj [("name", VStr "ask");
            ("description",
             VStr ("Enviar uma pergunta ou mensagem para " +:+ botName config
                   +:+ ". Use quando precisar consultar informações, contexto, ou delegar tarefas específicas."));
            ("inputSchema",
             VObj [("type", VStr "object");
                   ("properties",
                    VObj [("message",
                           VObj [("type", VStr "string");
                                 ("description",
                                  VStr ("A mensagem ou pergunta para enviar a "
                                        +:+ botName config))])]);
                   ("required", VArr [VStr "message"])])];
      VObj [("name", VStr "memory_search");
            ("description",
             VStr ("Buscar na memória de longo prazo de " +:+ botName config
                   +:+ " (MEMORY.md). Útil para encontrar decisões passadas, contexto de projetos, etc."));
            ("inputSchema",
             VObj [("type", VStr "object");
                   ("properties",
                    VObj [("query",
                           VObj [("type", VStr "string");
                                 ("description",
                                  VStr "Termo ou frase para buscar na memória")])]);
                   ("required", VArr [VStr "query"])])];
      VObj [("name", VStr "sessions_status");
            ("description", VStr "Verificar status das sessões do OpenClaw");
            ("inputSchema",
             VObj [("type", VStr "object");
                   ("properties", VObj [])])] ].

Definition rpc_error (code : Z) (msg : string) (id : value) : value :=
  VObj [("jsonrpc", VStr "2.0");
        ("error", VObj [("code", VNum code); ("message", VStr msg)]);
        ("id", id)].

(** The authentication middleware; [next] is the rest of the route, which
    Express runs on the same request. *)
Definition authenticate (req : Request) (next : Request -> M Response) : M Response :=
  let authHeader := authorization req in
  match authHeader with
  | None => ret (send_json 401 (rpc_error (-32600) "Missing or invalid authorization header" VNull))
  | Some authHeader =>
      if String.eqb authHeader EmptyString || negb (startsWith authHeader "Bearer ")
      then ret (send_json 401 (rpc_error (-32600) "Missing or invalid authorization header" VNull))
      else
        let token := substring_from 7 authHeader in
        if negb (String.eqb token (apiKey config))
        then ret (send_json 403 (rpc_error (-32600) "Invalid API key" VNull))
        else next req
  end.

(** The inner [switch (toolName)] of [handleRequest]. *)
Definition call_tool (toolName toolArgs : value) : M string :=
  if is_string toolName "ask" then
    if negb (truthy (prop toolArgs "message"))
    then throw (Error "Missing 'message' argument")
    else
      let* text := format (prop toolArgs "message") in
      console_log (LogSending text) >>
      let* result := sendToOpenClaw (prop toolArgs "message") 120 in
      console_log LogResponseReceived >>
      ret result
  else if is_string toolName "memory_search" then
    if negb (truthy (prop toolArgs "query"))
    then throw (Error "Missing 'query' argument")
    else searchMemory (prop toolArgs "query")
  else if is_string toolName "sessions_status" then
    listSessions
  else
    let* text := format toolName in
    throw (Error ("Unknown tool: " +:+ text)).

Definition tool_result (id : value) (text : string) : value :=
  VObj [("jsonrpc", VStr "2.0");
        ("id", id);
        ("result", VObj [("content", VArr [text_block text])])].

Definition tool_error (id : value) (text : string) : value :=
  VObj [("jsonrpc", VStr "2.0");
        ("id", id);
        ("result", VObj [("content", VArr [text_block text]);
                         ("isError", VBool true)])].

(** [handleRequest(method, params, id)], awaited; [VNull] is the [null]
    returned for the notification. *)
Definition handleRequest (method params id : value) : M value :=
  let* methodText := format method in
  console_log (LogHandling methodText) >>
  if is_string method "initialize" then
    let* sessionId := draw_uuid in
    sessions_set sessionId
      (VObj [("initialized", VBool true);
             ("protocolVersion", prop params "protocolVersion");
             ("clientInfo", prop params "clientInfo")]) >>
    ret (VObj [("jsonrpc", VStr "2.0");
               ("id", id);
               ("result",
                VObj [("protocolVersion", VStr "2024-11-05");
                      ("capabilities", SERVER_CAPABILITIES);
                      ("serverInfo", SERVER_INFO);
                      ("sessionId", VStr sessionId)])])
  else if is_string method "initialized" then
    ret VNull
  else if is_string method "tools/list" then
    ret (VObj [("jsonrpc", VStr "2.0");
               ("id", id);
               ("result", VObj [("tools", TOOLS)])])
  else if is_string method "tools/call" then
    let toolName := prop params "name" in
    let toolArgs := or_else (prop params "arguments") (VObj []) in
    let* nameText := format toolName in
    console_log (LogCallingTool nameText toolArgs) >>
    try_catch
      (let* result := call_tool toolName toolArgs in
       ret (tool_result id (or_success result)))
      (fun error =>
         console_log (LogToolError error) >>
         ret (tool_error id ("Error: " +:+ error_message error)))
  else if is_string method "ping" then
    ret (VObj [("jsonrpc", VStr "2.0"); ("id", id); ("result", VObj [])])
  else
    let* text := format method in
    ret (VObj [("jsonrpc", VStr "2.0");
               ("id", id);
               ("error",
                VObj [("code", VNum (-32601));
                      ("message", VStr ("Method not found: " +:+ text))])]).

(** [const { method, params, id, jsonrpc } = req.body]: there is nothing
    to take apart in [undefined] or [null]. *)
Definition destructure_body (b : value) : M unit :=
  match b with
  | VUndefined =>
      throw (TypeError "Cannot destructure property 'method' of 'req.body' as it is undefined.")
  | VNull =>
      throw (TypeError "Cannot destructure property 'method' of 'req.body' as it is null.")
  | _ => ret tt
  end.

(** The handler of [app.post("/mcp", authenticate, ...)].  What it throws
    outside its [try] rejects the promise of the handler, which has sent
    nothing then; what becomes of the request is up to Express (version 4
    leaves it open, version 5 hands the error to its error handler). *)
Definition post_mcp_handler (req : Request) : M Response :=
  destructure_body (body req) >>
  let method := prop (body req) "method" in
  let params := prop (body req) "params" in
  let id := prop (body req) "id" in
  let jsonrpc := prop (body req) "jsonrpc" in
  let* methodText := format method in
  let* idText := format id in
  console_log (LogPost methodText idText) >>
  if negb (is_string jsonrpc "2.0") then
    ret (send_json 400 (rpc_error (-32600) "Invalid JSON-RPC version" VNull))
  else
    try_catch
      (let* response := handleRequest method (or_else params (VObj [])) id in
       match response with
       | VNull => ret (send_end 202)
       | _ => ret (send_json 200 response)
       end)
      (fun error =>
         console_log (LogError error) >>
         ret (send_json 500 (rpc_error (-32603) (error_message error) id))).

(** [POST /mcp] *)
Definition post_mcp (req : Request) : M Response :=
  authenticate req post_mcp_handler.

(** *** [server-mcp.js], on the SDK *)

Definition sdk_authenticate (req : Request) (next : Request -> M Response) : M Response :=
  let authHeader := authorization req in
  match authHeader with
  | None => ret (send_json 401 (VObj [("error", VStr "Missing or invalid authorization header")]))
  | Some authHeader =>
      if String.eqb authHeader EmptyString || negb (startsWith authHeader "Bearer ")
      then ret (send_json 401 (VObj [("error", VStr "Missing or invalid authorization header")]))
      else
        let token := substring_from 7 authHeader in
        if negb (String.eqb token (apiKey config))
        then ret (send_json 403 (VObj [("error", VStr "Invalid API key")]))
        else next req
  end.

(** The [switch (name)] of the [CallToolRequestSchema] handler. *)
Definition sdk_call_tool (name args : value) : M string :=
  if is_string name "ask" then
    if negb (truthy (prop args "message"))
    then throw (Error "Missing 'message' argument")
    else sendToOpenClaw (prop args "message") 120
  else if is_string name "memory_search" then
    if negb (truthy (prop args "query"))
    then throw (Error "Missing 'query' argument")
    else searchMemory (prop args "query")
  else if is_string name "sessions_status" then
    listSessions
  else
    let* text := format name in
    throw (Error ("Unknown tool: " +:+ text)).

(** The handler registered for [CallToolRequestSchema], on
    [request.params]. *)
Definition sdk_CallToolRequest_handler (params : value) : M value :=
  let name := prop params "name" in
  let args := prop params "arguments" in
  try_catch
    (let* result := sdk_call_tool name args in
     ret (VObj [("content", VArr [text_block (or_success result)])]))
    (fun error =>
       ret (VObj [("content", VArr [text_block ("Error: " +:+ error_message error)]);
                  ("isError", VBool true)])).

End Server.

Arguments settle : simpl nomatch.
Arguments spawn : simpl never.
Arguments sendToOpenClaw : simpl never.
Arguments searchMemory : simpl never.
Arguments listSessions : simpl never.
Arguments call_tool : simpl never.
Arguments sdk_call_tool : simpl never.
Arguments handleRequest : simpl never.
Arguments post_mcp_handler : simpl never.
Arguments TOOLS : simpl never.
Arguments SERVER_INFO : simpl never.

(* ===================================================================== *)
(** ** Vocabulary of the statements *)
(* ===================================================================== *)

(** The world with another session map. *)
Definition with_sessions (s : gmap string value) (w : World) : World :=
  {| sessions := s; uuidsDrawn := uuidsDrawn w;
     spawned := spawned w; console := console w |}.

(** The world after some more console lines. *)
Definition logged (entries : list LogEntry) (w : World) : World :=
  {| sessions := sessions w; uuidsDrawn := uuidsDrawn w;
     spawned := spawned w; console := console w ++ entries |}.

(** The world after one more child process. *)
Definition with_spawn (cmd : string) (args : list string) (w : World) : World :=
  {| sessions := sessions w; uuidsDrawn := uuidsDrawn w;
     spawned := spawned w ++ [(cmd, args)]; console := console w |}.

(** Two worlds that differ in the session map at most. *)
Definition same_but_sessions (w1 w2 : World) : Prop :=
  uuidsDrawn w1 = uuidsDrawn w2 /\ spawned w1 = spawned w2 /\ console w1 = console w2.

(** Events on the pipes only: the process has neither closed nor failed. *)
Definition is_data (e : ProcEvent) : bool :=
  match e with
  | StdoutData _ | StderrData _ => true
  | Close _ | ErrorEvent _ | InvalidArg _ => false
  end.

(** The text a run of events leaves in each buffer. *)
Fixpoint stdout_of (events : list ProcEvent) : string :=
  match events with
  | [] => EmptyString
  | StdoutData d :: rest => d +:+ stdout_of rest
  | _ :: rest => stdout_of rest
  end.

Fixpoint stderr_of (events : list ProcEvent) : string :=
  match events with
  | [] => EmptyString
  | StderrData d :: rest => d +:+ stderr_of rest
  | _ :: rest => stderr_of rest
  end.

(** The specification's reading of the escaping: [escaped m m'] when [m']
    is [m] with a backslash put before every double quote, and nothing
    else changed. *)
Inductive escaped : string -> string -> Prop :=
| escaped_nil : escaped EmptyString EmptyString
| escaped_quote m m' :
    escaped m m' ->
    escaped (String DQUOTE m) (String BACKSLASH (String DQUOTE m'))
| escaped_other c m m' :
    c <> DQUOTE -> escaped m m' -> escaped (String c m) (String c m').

(** The argument vector of [sessions send]. *)
Definition send_argv (label message : string) : list string :=
  ["sessions"; "send"; "--label"; label; "--message"; message; "--timeout"; "120"].

(** *** A concrete host, for running the servers on examples *)

Definition ascii_lower (c : ascii) : ascii :=
  let n := nat_of_ascii c in
  if (65 <=? n)%nat && (n <=? 90)%nat then ascii_of_nat (n + 32) else c.

Fixpoint lower (s : string) : string :=
  match s with
  | EmptyString => EmptyString
  | String c t => String (ascii_lower c) (lower t)
  end.

Definition demo_config : Config :=
  {| botName := "My Bot"; sessionLabel := "main"; apiKey := "s3cret";
     port := 3721; bindAddress := "0.0.0.0";
     workspace := "/home/claw/.openclaw/workspace" |}.

(** A host whose memory file is [file] ([None]: there is none), whose
    agent emits [events] whatever it is asked, and whose UUIDs are
    numbered. *)
Definition demo_host (file : option string) (events : list ProcEvent) : Host :=
  {| toLowerCase := lower;
     path_join := fun a b => a +:+ "/" +:+ b;
     existsSync := fun p =>
       match file with
       | Some _ => String.eqb p "/home/claw/.openclaw/workspace/MEMORY.md"
       | None => false
       end;
     readFileSync := fun p =>
       match file with
       | Some content => inl content
       | None => inr (Error "ENOENT: no such file or directory")
       end;
     child_process := fun _ _ => events;
     randomUUID := fun n => "uuid-" +:+ nat_to_string n;
     Number_toString := Z_to_string |}.

Definition lines_text (lines : list string) : string := join (str LF) lines.

Definition demo_request (token : string) (fields : list (string * value)) : Request :=
  {| authorization := Some ("Bearer " +:+ token); body := VObj fields |}.

Definition tools_call (id : value) (name : string) (args : list (string * value)) : list (string * value) :=
  [("jsonrpc", VStr "2.0"); ("id", id); ("method", VStr "tools/call");
   ("params", VObj [("name", VStr name); ("arguments", VObj args)])].

(** Requests and files of the examples. *)
Definition no_header_request : Request := {| authorization := None; body := VObj [] |}.

Definition basic_header_request : Request :=
  {| authorization := Some "Basic czNjcmV0"; body := VObj [] |}.

Definition demo_route : Request -> M Response :=
  post_mcp_handler demo_config (demo_host None []).


Definition demo_memory : string :=
  lines_text ["# Memory"; "Alpha decided X"; "beta"; "ALPHA again"; "x alpha y"].

Definition demo_memory_long : string :=
  lines_text ["note 1"; "note 2"; "todo"; "note 3"; "note 4"; "note 5"; "Note 6";
              "note 7"; "NOTE 8"; "note 9"; "note 10"; "note 11"; "note 12"].

Definition quoted_message : string :=
  "say " +:+ str DQUOTE +:+ "hi" +:+ str DQUOTE.

Definition escaped_message : string :=
  "say " +:+ str BACKSLASH +:+ str DQUOTE +:+ "hi" +:+ str BACKSLASH +:+ str DQUOTE.


(** A computation that neither reads the session map nor lets it decide
    anything but the session map it leaves. *)
Definition ignores_sessions {A} (m : M A) : Prop :=
  forall w1 w2,
    same_but_sessions w1 w2 ->
    fst (m w1) = fst (m w2) /\ same_but_sessions (snd (m w1)) (snd (m w2)).


(** A computation that only ever adds lines to the console. *)
Definition console_grows {A} (m : M A) : Prop :=
  forall w, console w `prefix_of` console (snd (m w)).



Definition KNOWN_TOOLS : list string :=
  ["ask"; "memory_search"; "sessions_status"].

(** A request that passes [authenticate] and the envelope check. *)
Definition authorized (config : Config) (req : Request) : Prop :=
  authorization req = Some ("Bearer " +:+ apiKey config).

Definition valid_envelope (req : Request) : Prop :=
  prop (body req) "jsonrpc" = VStr "2.0".

(* ===================================================================== *)
(** ** The remaining routes *)
(* ===================================================================== *)

Section Routes.

Variable config : Config.

(** [tools.map(t => t.name)] on an array. *)
Definition tool_names (tools : value) : value :=
  match tools with
  | VArr items => VArr (List.map (fun t => prop t "name") items)
  | _ => VUndefined
  end.

(** The handler of [app.get("/")] in the hand-written server: no
    authentication, the names read off [TOOLS]. *)
Definition info_endpoint : Response :=
  send_json 200
    (VObj [("name", VStr (botName config +:+ " MCP Server"));
           ("version", VStr "1.0.0");
           ("transport", VStr "streamable-http");
           ("endpoint", VStr "/mcp");
           ("authentication", VStr "Bearer token required");
           ("tools", tool_names (TOOLS config))]).

(** The handler of [app.get("/")] in [server-mcp.js]: the names written
    out. *)
Definition sdk_info_endpoint : Response :=
  send_json 200
    (VObj [("name", VStr (botName config +:+ " MCP Server"));
           ("version", VStr "1.0.0");
           ("transport", VStr "streamable-http");
           ("endpoint", VStr "/mcp");
           ("authentication", VStr "Bearer token required");
           ("tools", VArr [VStr "ask"; VStr "memory_search"; VStr "sessions_status"])]).

(** The handler [server-mcp.js] registers for [ListToolsRequestSchema]. *)
Definition sdk_ListTools_handler : value :=
  VObj
    [("tools",
      VArr
        [ VObj [("name", VStr "ask");
                ("description",
                 VStr ("Enviar uma pergunta ou mensagem para " +:+ botName config
                       +:+ ". Use quando precisar consultar informações, contexto, ou delegar tarefas específicas."));
                ("inputSchema",
                 VObj [("type", VStr "object");
                       ("properties",
                        VObj [("message",
                               VObj [("type", VStr "string");
                                     ("description",
                                      VStr ("A mensagem ou pergunta para enviar a "
                                            +:+ botName config))])]);
                       ("required", VArr [VStr "message"])])];
          VObj [("name", VStr "memory_search");
                ("description",
                 VStr ("Buscar na memória de longo prazo de " +:+ botName config
                       +:+ " (MEMORY.md). Útil para encontrar decisões passadas, contexto de projetos, etc."));
                ("inputSchema",
                 VObj [("type", VStr "object");
                       ("properties",
                        VObj [("query",
                               VObj [("type", VStr "string");
                                     ("description",
                                      VStr "Termo ou frase para buscar na memória")])]);
                       ("required", VArr [VStr "query"])])];
          VObj [("name", VStr "sessions_status");
                ("description", VStr "Verificar status das sessões do OpenClaw");
                ("inputSchema",
                 VObj [("type", VStr "object");
                       ("properties", VObj [])])] ])].

End Routes.

(** *** The event stream of [GET /mcp] *)

(** The response of the stream route as the handler and its two callbacks
    act on it: the headers set, whether they were flushed, the chunks
    written, the interval timer ([Some] period in milliseconds while it is
    armed) and the two console lines of the route. *)
Record SseStream : Type := {
  sse_headers : list (string * string);
  sse_flushed : bool;
  sse_written : list string;
  sse_keepAlive : option Z;
  sse_console : list string
}.

(** A response nothing was done to yet. *)
Definition fresh_stream : SseStream :=
  {| sse_headers := []; sse_flushed := false; sse_written := [];
     sse_keepAlive := None; sse_console := [] |}.

Definition KEEPALIVE : string := ": keepalive" +:+ str LF +:+ str LF.

(** The handler of [app.get("/mcp", authenticate, ...)], run once the
    authenticator let the request through. *)
Definition get_mcp_handler (res : SseStream) : SseStream :=
  {| sse_headers :=
       sse_headers res ++ [("Content-Type", "text/event-stream");
                           ("Cache-Control", "no-cache");
                           ("Connection", "keep-alive")];
     sse_flushed := true;
     sse_written := sse_written res;
     sse_keepAlive := Some 30000%Z;
     sse_console := sse_console res ++ ["[MCP] GET request - SSE stream"] |}.

(** The callback given to [setInterval]. *)
Definition keepAlive_callback (res : SseStream) : SseStream :=
  {| sse_headers := sse_headers res; sse_flushed := sse_flushed res;
     sse_written := sse_written res ++ [KEEPALIVE];
     sse_keepAlive := sse_keepAlive res; sse_console := sse_console res |}.

(** The listener of the request's ['close']. *)
Definition close_listener (res : SseStream) : SseStream :=
  {| sse_headers := sse_headers res; sse_flushed := sse_flushed res;
     sse_written := sse_written res;
     sse_keepAlive := None;
     sse_console := sse_console res ++ ["[MCP] SSE stream closed"] |}.

(** What the event loop delivers to an open stream: the interval's period
    has passed, or the client went away. *)
Inductive SseEvent : Type :=
| IntervalElapsed
| RequestClosed.

(** The event loop runs the interval's callback only while the timer is
    armed. *)
Definition sse_step (res : SseStream) (e : SseEvent) : SseStream :=
  match e with
  | IntervalElapsed =>
      match sse_keepAlive res with
      | Some _ => keepAlive_callback res
      | None => res
      end
  | RequestClosed => close_listener res
  end.

Definition sse_run (events : list SseEvent) (res : SseStream) : SseStream :=
  fold_left sse_step events res.

(** *** More vocabulary *)

(** The periods that pass before the client first goes away. *)
Fixpoint ticks_before_close (events : list SseEvent) : nat :=
  match events with
  | [] => 0
  | IntervalElapsed :: rest => S (ticks_before_close rest)
  | RequestClosed :: _ => 0
  end.


(** A computation that leaves one aspect [f] of the state as it was. *)
Definition preserves {A X} (f : World -> X) (m : M A) : Prop :=
  forall w, f (snd (m w)) = f w.

(** The header names the [Bearer] scheme. *)
Definition has_bearer (req : Request) : bool :=
  match authorization req with
  | Some h => startsWith h "Bearer "
  | None => false
  end.

(** The argument vector of [sessions list]. *)
Definition LIST_ARGV : list string := ["sessions"; "list"; "--limit"; "10"].

(** More requests of the examples. *)
Definition lowercase_scheme_request : Request :=
  {| authorization := Some "bearer s3cret"; body := VObj [] |}.

Definition trailing_space_request : Request :=
  {| authorization := Some "Bearer s3cret "; body := VObj [] |}.

Definition ping_without_id : Request :=
  demo_request "s3cret" [("jsonrpc", VStr "2.0"); ("method", VStr "ping")].

Definition ask_hello : value :=
  VObj [("name", VStr "ask"); ("arguments", VObj [("message", VStr "hello")])].

Definition answering_agent : list ProcEvent :=
  [StdoutData "  The answer"; StderrData "thinking"; StdoutData (" is 42" +:+ str LF);
   Close (Some 0%Z); StdoutData "late"].

Definition one_session : World :=
  snd (handleRequest demo_config (demo_host None []) (VStr "initialize")
         (VObj [("protocolVersion", VStr "2025-06-18")]) (VNum 0) initial_world).

(** The route's answer when the dispatcher throws on a value it cannot
    format. *)
Definition internal_error (id : value) : Response :=
  send_json 500 (rpc_error (-32603) "Cannot convert object to primitive value" id).

(** The JSON object [{"toString": 1}]: its own [toString] is not a
    function, and it has no text. *)
Definition unformattable : value := VObj [("toString", VNum 1)].

(** Requests with the key whose identifier, or whose tool name, is that
    object, and one whose body was not parsed. *)
Definition bad_version_unformattable_id : Request :=
  demo_request "s3cret"
    [("jsonrpc", VStr "1.0"); ("id", unformattable); ("method", VStr "ping")].




(** [ask] with the number 123 for a message. *)
Definition ask_number : value :=
  VObj [("name", VStr "ask"); ("arguments", VObj [("message", VNum 123)])].

(** A message with a NUL byte, and what [spawn] says of it. *)
Definition nul_message : string := "a" +:+ str (ascii_of_nat 0) +:+ "b".

Definition nul_detail : string :=
  "'args[5]' must be a string without null bytes. Received 'a\x00b'".

(* ===================================================================== *)
(** ** Properties *)
(* ===================================================================== *)

(** Unfolds the monad's combinators and the primitive effects. *)
Ltac run :=
  unfold format, bind, ret, throw, try_catch, await, console_log, sessions_set,
    start_process; cbn.

Section StringFacts.

Lemma startsWith_bearer (token : string) :
  startsWith ("Bearer " +:+ token) "Bearer " = true.
Proof. unfold startsWith. cbn. destruct token; reflexivity. Qed.

Lemma substring_bearer (token : string) :
  substring_from 7 ("Bearer " +:+ token) = token.
Proof. reflexivity. Qed.

Lemma is_string_true (v : value) (lit : string) :
  is_string v lit = true <-> v = VStr lit.
Proof.
  destruct v; cbn; try (split; [discriminate | congruence]).
  rewrite String.eqb_eq. split; congruence.
Qed.

Lemma is_string_false (v : value) (lit : string) :
  v <> VStr lit -> is_string v lit = false.
Proof.
  intros Hne. destruct (is_string v lit) eqn:E; [|reflexivity].
  apply is_string_true in E. contradiction.
Qed.

Lemma string_app_cons (c : ascii) (s t : string) :
  String c s +:+ t = String c (s +:+ t).
Proof. reflexivity. Qed.

Lemma string_app_nil_l (s : string) : EmptyString +:+ s = s.
Proof. reflexivity. Qed.

Lemma string_app_nil_r (s : string) : s +:+ EmptyString = s.
Proof.
  induction s as [|c s IH]; [reflexivity|].
  rewrite string_app_cons. f_equal. exact IH.
Qed.

Lemma string_app_assoc (a b c : string) : (a +:+ b) +:+ c = a +:+ (b +:+ c).
Proof.
  induction a as [|x a IH]; [reflexivity|].
  rewrite !string_app_cons. f_equal. exact IH.
Qed.

End StringFacts.

Section Properties.

Variable config : Config.
Variable host : Host.

(** *** The authenticator *)

(** C3.  On both servers: no [Authorization] header, or one that does not
    start with [Bearer ], is answered 401; a bearer token that differs
    from the configured key is answered 403; the configured key lets the
    rest of the route run on the same request, in the same state. *)
Theorem authenticate_gate (req : Request) (next : Request -> M Response) (w : World) :
  ((authorization req = None
    \/ exists h, authorization req = Some h /\ startsWith h "Bearer " = false) ->
   exists r1 r2,
     authenticate config req next w = (Return r1, w) /\ status r1 = 401%Z
     /\ sdk_authenticate config req next w = (Return r2, w) /\ status r2 = 401%Z)
  /\ (forall token,
        authorization req = Some ("Bearer " +:+ token) ->
        token <> apiKey config ->
        exists r1 r2,
          authenticate config req next w = (Return r1, w) /\ status r1 = 403%Z
          /\ sdk_authenticate config req next w = (Return r2, w) /\ status r2 = 403%Z)
  /\ (authorization req = Some ("Bearer " +:+ apiKey config) ->
      authenticate config req next w = next req w
      /\ sdk_authenticate config req next w = next req w).
Proof.
  unfold authenticate, sdk_authenticate.
  split; [|split].
  - intros [Hnone | (h & Hsome & Hpre)].
    + rewrite Hnone. do 2 eexists. repeat split.
    + rewrite Hsome, Hpre. cbn. rewrite orb_true_r.
      do 2 eexists. repeat split.
  - intros token Hsome Hne. rewrite Hsome.
    rewrite startsWith_bearer, substring_bearer.
    apply String.eqb_neq in Hne. rewrite Hne. cbn.
    do 2 eexists. repeat split.
  - intros Hsome. rewrite Hsome.
    rewrite startsWith_bearer, substring_bearer, String.eqb_refl.
    cbn. split; reflexivity.
Qed.

(** *** How the handlers compose *)

Lemma join_with_cases (conv : value -> outcome string) (sep : string) (l : list value) :
  List.Forall (fun x => (exists text, conv x = Return text)
                        \/ conv x = Throw CANNOT_CONVERT) l ->
  (exists text, join_with conv sep l = Return text)
  \/ join_with conv sep l = Throw CANNOT_CONVERT.
Proof.
  intros Hconv. revert sep.
  induction Hconv as [|x rest Hx _ IHrest]; intros sep; cbn.
  - left. eexists. reflexivity.
  - destruct Hx as [[text Hx]|Hx]; rewrite Hx; [|right; reflexivity].
    destruct (IHrest ",") as [[more Hm]|Hm]; rewrite Hm;
      [left; eexists; reflexivity | right; reflexivity].
Qed.

(** A conversion to text ends with a text or with the one [TypeError]. *)
Lemma ToString_cases (v : value) :
  (exists text, ToString host v = Return text)
  \/ ToString host v = Throw CANNOT_CONVERT.
Proof.
  revert v. fix IH 1. intros [ | |b|n|s|items|fields].
  - left. eexists. reflexivity.
  - left. eexists. reflexivity.
  - left. destruct b; eexists; reflexivity.
  - left. eexists. reflexivity.
  - left. eexists. reflexivity.
  - cbn [ToString]. apply join_with_cases.
    induction items as [|x rest IHrest]; constructor; [|exact IHrest].
    destruct (IH x) as [Hok|Hko];
      destruct x;
      first [ left; eexists; reflexivity | left; exact Hok | right; exact Hko ].
  - cbn [ToString]. destruct (has_own fields "toString");
      [right | left; eexists]; reflexivity.
Qed.

Lemma ToString_not_pending (v : value) : ToString host v <> Pending.
Proof. destruct (ToString_cases v) as [[text H]|H]; rewrite H; discriminate. Qed.

Lemma ToString_throws (v : value) (e : JsError) :
  ToString host v = Throw e -> e = CANNOT_CONVERT.
Proof. destruct (ToString_cases v) as [[text H]|H]; rewrite H; congruence. Qed.

(** [tools/call]: the dispatcher formats the tool's name for the console
    and then wraps what the tool switch does. *)
Lemma handleRequest_tools_call (params id : value) (w : World) :
  let toolName := prop params "name" in
  let toolArgs := or_else (prop params "arguments") (VObj []) in
  handleRequest config host (VStr "tools/call") params id w
  = match ToString host toolName with
    | Return nameText =>
        match call_tool config host toolName toolArgs
                (logged [LogCallingTool nameText toolArgs]
                   (logged [LogHandling "tools/call"] w)) with
        | (Return result, w') => (Return (tool_result id (or_success result)), w')
        | (Throw error, w') =>
            (Return (tool_error id ("Error: " +:+ error_message error)),
             logged [LogToolError error] w')
        | (Pending, w') => (Pending, w')
        end
    | Throw error => (Throw error, logged [LogHandling "tools/call"] w)
    | Pending => (Pending, logged [LogHandling "tools/call"] w)
    end.
Proof.
  unfold handleRequest. run. unfold logged. cbn.
  destruct (ToString host (prop params "name")) as [nameText|e|]; try reflexivity.
  destruct (call_tool _ _ _ _ _) as [[r|e|] w']; reflexivity.
Qed.

(** The same when the name is a string, which is its own text. *)
Lemma handleRequest_tools_call_named (params id : value) (w : World) (name : string) :
  prop params "name" = VStr name ->
  let toolArgs := or_else (prop params "arguments") (VObj []) in
  handleRequest config host (VStr "tools/call") params id w
  = match call_tool config host (prop params "name") toolArgs
            (logged [LogCallingTool name toolArgs]
               (logged [LogHandling "tools/call"] w)) with
    | (Return result, w') => (Return (tool_result id (or_success result)), w')
    | (Throw error, w') =>
        (Return (tool_error id ("Error: " +:+ error_message error)),
         logged [LogToolError error] w')
    | (Pending, w') => (Pending, w')
    end.
Proof.
  intros Hname. rewrite handleRequest_tools_call. cbn zeta.
  rewrite Hname at 1. reflexivity.
Qed.

(** The same for the SDK's handler. *)
Lemma sdk_handler_unfold (params : value) (w : World) :
  sdk_CallToolRequest_handler config host params w
  = match sdk_call_tool config host (prop params "name") (prop params "arguments") w with
    | (Return result, w') =>
        (Return (VObj [("content", VArr [text_block (or_success result)])]), w')
    | (Throw error, w') =>
        (Return (VObj [("content", VArr [text_block ("Error: " +:+ error_message error)]);
                       ("isError", VBool true)]), w')
    | (Pending, w') => (Pending, w')
    end.
Proof.
  unfold sdk_CallToolRequest_handler. run.
  destruct (sdk_call_tool _ _ _ _ _) as [[r|e|] w']; reflexivity.
Qed.

(** A [POST] with a valid envelope: the route formats the method and the
    identifier for the console, outside its [try], and then wraps what
    the dispatcher returns. *)
Lemma post_mcp_handler_valid (req : Request) (w : World) :
  valid_envelope req ->
  let method := prop (body req) "method" in
  let id := prop (body req) "id" in
  post_mcp_handler config host req w
  = match ToString host method with
    | Return methodText =>
        match ToString host id with
        | Return idText =>
            match handleRequest config host method
                    (or_else (prop (body req) "params") (VObj [])) id
                    (logged [LogPost methodText idText] w) with
            | (Return VNull, w') => (Return (send_end 202), w')
            | (Return response, w') => (Return (send_json 200 response), w')
            | (Throw error, w') =>
                (Return (send_json 500 (rpc_error (-32603) (error_message error) id)),
                 logged [LogError error] w')
            | (Pending, w') => (Pending, w')
            end
        | Throw error => (Throw error, w)
        | Pending => (Pending, w)
        end
    | Throw error => (Throw error, w)
    | Pending => (Pending, w)
    end.
Proof.
  intros Henv. unfold post_mcp_handler, destructure_body.
  assert (Hobj : exists fields, body req = VObj fields).
  { unfold valid_envelope in Henv. destruct (body req); try discriminate. eauto. }
  destruct Hobj as [fields Hobj]. unfold valid_envelope in Henv.
  rewrite Hobj in *. cbn [prop] in *.
  run. rewrite Henv.
  destruct (ToString host (lookup_field "method" fields)) as [mt|e|]; try reflexivity.
  destruct (ToString host (lookup_field "id" fields)) as [it|e|]; try reflexivity.
  cbn. unfold logged. cbn.
  destruct (handleRequest _ _ _ _ _ _) as [[r|e|] w']; try reflexivity.
  destruct r; reflexivity.
Qed.

(** The same when both texts are known. *)
Lemma post_mcp_handler_formatted (req : Request) (w : World) (methodText idText : string) :
  valid_envelope req ->
  ToString host (prop (body req) "method") = Return methodText ->
  ToString host (prop (body req) "id") = Return idText ->
  post_mcp_handler config host req w
  = match handleRequest config host (prop (body req) "method")
            (or_else (prop (body req) "params") (VObj [])) (prop (body req) "id")
            (logged [LogPost methodText idText] w) with
    | (Return VNull, w') => (Return (send_end 202), w')
    | (Return response, w') => (Return (send_json 200 response), w')
    | (Throw error, w') =>
        (Return (send_json 500 (rpc_error (-32603) (error_message error)
                                  (prop (body req) "id"))),
         logged [LogError error] w')
    | (Pending, w') => (Pending, w')
    end.
Proof.
  intros Henv Hm Hi. rewrite post_mcp_handler_valid by exact Henv.
  cbn zeta. rewrite Hm, Hi. reflexivity.
Qed.

(** A request with the configured key reaches the handler. *)
Lemma post_mcp_authorized (req : Request) (w : World) :
  authorized config req ->
  post_mcp config host req w = post_mcp_handler config host req w.
Proof.
  intros Hauth. unfold post_mcp, authenticate. rewrite Hauth.
  rewrite startsWith_bearer, substring_bearer, String.eqb_refl. reflexivity.
Qed.

(** The authenticator either answers by itself, with the code -32600 and
    the state untouched, or hands the request on. *)
Lemma authenticate_cases (req : Request) (next : Request -> M Response) (w : World) :
  (exists code msg,
      authenticate config req next w
      = (Return (send_json code (rpc_error (-32600) msg VNull)), w))
  \/ authenticate config req next w = next req w.
Proof.
  unfold authenticate.
  destruct (authorization req) as [h|]; [|left; do 2 eexists; reflexivity].
  destruct (String.eqb h EmptyString || negb (startsWith h "Bearer "));
    [left; do 2 eexists; reflexivity|].
  destruct (negb (String.eqb (substring_from 7 h) (apiKey config)));
    [left; do 2 eexists; reflexivity|].
  right. reflexivity.
Qed.

(** The dispatcher throws only where it formats a value for its console:
    the method, and for [tools/call] the tool's name. *)
Lemma handleRequest_throws (method params id : value) (w : World) (e : JsError) :
  fst (handleRequest config host method params id w) = Throw e ->
  e = CANNOT_CONVERT
  /\ (ToString host method = Throw CANNOT_CONVERT
      \/ (method = VStr "tools/call"
          /\ ToString host (prop params "name") = Throw CANNOT_CONVERT)).
Proof.
  destruct (is_string method "tools/call") eqn:Hcall.
  - apply is_string_true in Hcall. subst method.
    rewrite handleRequest_tools_call. cbn zeta.
    destruct (ToString_cases (prop params "name")) as [[nameText Hn]|Hn]; rewrite Hn.
    + destruct (call_tool _ _ _ _ _) as [[r|e'|] w']; discriminate.
    + cbn. intros [= <-]. split; [reflexivity|]. right. split; reflexivity.
  - unfold handleRequest. run.
    destruct (ToString_cases method) as [[mt Hm]|Hm]; rewrite Hm; cbn.
    + rewrite Hcall.
      repeat match goal with
             | |- context [if ?b then _ else _] => destruct b
             end; unfold draw_uuid; run; discriminate.
    + intros [= <-]. split; [reflexivity|]. left. reflexivity.
Qed.

(** It does not throw on a method it can format, unless that is
    [tools/call]. *)
Lemma handleRequest_returns (method params id : value) (w : World) (methodText : string) :
  ToString host method = Return methodText ->
  method <> VStr "tools/call" ->
  exists response,
    fst (handleRequest config host method params id w) = Return response.
Proof.
  intros Hm Hne. apply is_string_false in Hne.
  unfold handleRequest. run. rewrite Hm. cbn. rewrite Hne.
  repeat match goal with
         | |- context [if ?b then _ else _] => destruct b
         end; unfold draw_uuid; run; eexists; reflexivity.
Qed.

(** What the dispatcher returns carries the identifier it was given. *)
Lemma handleRequest_id (method params id : value) (w : World) (response : value) :
  fst (handleRequest config host method params id w) = Return response ->
  method <> VStr "initialized" ->
  response <> VNull /\ prop response "id" = id.
Proof.
  intros Hret Hne.
  destruct (is_string method "tools/call") eqn:Hcall.
  - apply is_string_true in Hcall. subst method.
    rewrite handleRequest_tools_call in Hret. cbn zeta in Hret.
    destruct (ToString host (prop params "name")); try discriminate.
    destruct (call_tool _ _ _ _ _) as [[r|e|] w']; cbn in Hret;
      inversion Hret; subst; split; (discriminate || reflexivity).
  - apply is_string_false in Hne.
    unfold handleRequest in Hret. revert Hret. run.
    destruct (ToString host method); cbn; try discriminate.
    rewrite Hcall, Hne.
    repeat match goal with
           | |- context [if ?b then _ else _] => destruct b
           end; unfold draw_uuid; run; intros Hret;
      inversion Hret; subst; split; (discriminate || reflexivity).
Qed.

(** The route rejects only for a body that is not there or for a method
    or an identifier it cannot format. *)
Lemma post_mcp_handler_throws (req : Request) (w : World) (e : JsError) :
  fst (post_mcp_handler config host req w) = Throw e ->
  body req = VUndefined \/ body req = VNull
  \/ ToString host (prop (body req) "method") = Throw CANNOT_CONVERT
  \/ ToString host (prop (body req) "id") = Throw CANNOT_CONVERT.
Proof.
  unfold post_mcp_handler, destructure_body. cbv zeta.
  remember (prop (body req) "method") as m.
  remember (prop (body req) "id") as i.
  remember (prop (body req) "jsonrpc") as j.
  remember (prop (body req) "params") as p.
  destruct (body req); try (intros _; tauto); run;
    (destruct (ToString_cases m) as [[mt Hm]|Hm]; rewrite Hm; cbn; [|intros _; tauto];
     destruct (ToString_cases i) as [[it Hi]|Hi]; rewrite Hi; cbn; [|intros _; tauto]);
    (destruct (is_string j "2.0"); cbn; [|discriminate]);
    destruct (handleRequest _ _ _ _ _ _) as [[r|e'|] w']; cbn;
      try discriminate; destruct r; discriminate.
Qed.

(** *** The dispatcher *)


(** C8.  [tools/list] answers with the tool table, whatever the parameters
    and the state: three descriptors, named [ask], [memory_search] and
    [sessions_status] in this order, each with its input schema. *)
Theorem tools_list_static (params id : value) (w : World) :
  fst (handleRequest config host (VStr "tools/list") params id w)
  = Return (VObj [("jsonrpc", VStr "2.0"); ("id", id);
                  ("result", VObj [("tools", TOOLS config)])])
  /\ exists ask memory_search sessions_status,
       TOOLS config = VArr [ask; memory_search; sessions_status]
       /\ prop ask "name" = VStr "ask"
       /\ prop memory_search "name" = VStr "memory_search"
       /\ prop sessions_status "name" = VStr "sessions_status"
       /\ (exists description,
             prop ask "inputSchema"
             = VObj [("type", VStr "object");
                     ("properties",
                      VObj [("message", VObj [("type", VStr "string");
                                              ("description", VStr description)])]);
                     ("required", VArr [VStr "message"])])
       /\ (exists description,
             prop memory_search "inputSchema"
             = VObj [("type", VStr "object");
                     ("properties",
                      VObj [("query", VObj [("type", VStr "string");
                                            ("description", VStr description)])]);
                     ("required", VArr [VStr "query"])])
       /\ prop sessions_status "inputSchema"
          = VObj [("type", VStr "object"); ("properties", VObj [])].
Proof.
  split; [reflexivity|].
  unfold TOOLS. do 3 eexists. split; [reflexivity|].
  cbn. repeat split; eexists; reflexivity.
Qed.


(** C6.  Whatever the dispatcher returns for a method other than
    [initialized] is an envelope under the request's identifier, error
    branches included, and it does return one for every method it can
    format (any string is its own text) other than [tools/call], which
    waits for its tool; for [initialized] it returns [null], and the
    route then answers 202 without a body, the identifier, absent in a
    notification, being formatted for the console on the way.  Every body
    a valid [POST] sends, the 500 of the route included, carries the
    identifier of its request. *)
Theorem response_carries_id (method params id : value) (w : World) :
  (forall response,
     fst (handleRequest config host method params id w) = Return response ->
     method <> VStr "initialized" ->
     response <> VNull /\ prop response "id" = id)
  /\ (forall methodText,
        ToString host method = Return methodText ->
        method <> VStr "tools/call" ->
        exists response, fst (handleRequest config host method params id w) = Return response)
  /\ (method = VStr "initialized" ->
      fst (handleRequest config host method params id w) = Return VNull)
  /\ (forall req idText,
        authorized config req -> valid_envelope req ->
        prop (body req) "method" = VStr "initialized" ->
        ToString host (prop (body req) "id") = Return idText ->
        fst (post_mcp config host req w) = Return (send_end 202)
        /\ payload (send_end 202) = None)
  /\ (forall req sent envelope,
        authorized config req -> valid_envelope req ->
        fst (post_mcp config host req w) = Return sent ->
        payload sent = Some envelope ->
        prop envelope "id" = prop (body req) "id").
Proof.
  split; [intros response; apply handleRequest_id|].
  split; [intros methodText; apply handleRequest_returns|].
  split.
  { intros ->. reflexivity. }
  split.
  { intros req idText Hauth Henv Hm Hid.
    rewrite post_mcp_authorized by assumption.
    rewrite (post_mcp_handler_formatted req w "initialized" idText)
      by (rewrite ?Hm; assumption || reflexivity).
    rewrite Hm. split; reflexivity. }
  intros req sent envelope Hauth Henv Hsent Hpay.
  rewrite post_mcp_authorized, post_mcp_handler_valid in Hsent by assumption.
  cbn zeta in Hsent.
  destruct (ToString host (prop (body req) "method")) as [mt|e|]; try discriminate.
  destruct (ToString host (prop (body req) "id")) as [it|e|]; try discriminate.
  destruct (handleRequest _ _ _ _ _ _) as [[r|e|] w'] eqn:E.
  - assert (Hr : fst (handleRequest config host (prop (body req) "method")
                        (or_else (prop (body req) "params") (VObj []))
                        (prop (body req) "id") (logged [LogPost mt it] w))
                 = Return r) by (rewrite E; reflexivity).
    destruct (is_string (prop (body req) "method") "initialized") eqn:Hinit.
    + apply is_string_true in Hinit. rewrite Hinit in E.
      cbn in E. inversion E; subst. cbn in Hsent. inversion Hsent; subst.
      discriminate.
    + assert (Hne : prop (body req) "method" <> VStr "initialized").
      { intros Heq. apply is_string_true in Heq. congruence. }
      destruct (handleRequest_id _ _ _ _ _ Hr Hne) as [Hnn Hprop].
      destruct r; try contradiction; cbn in Hsent; inversion Hsent; subst;
        cbn in Hpay; inversion Hpay; subst; exact Hprop.
  - cbn in Hsent. inversion Hsent; subst. cbn in Hpay. inversion Hpay. reflexivity.
  - discriminate.
Qed.


(** *** The console records every call of the dispatcher *)

Lemma grows_ret {A} (a : A) : console_grows (ret a).
Proof. intros w. reflexivity. Qed.

Lemma grows_throw {A} (e : JsError) : console_grows (@throw A e).
Proof. intros w. reflexivity. Qed.

Lemma grows_bind {A B} (m : M A) (k : A -> M B) :
  console_grows m -> (forall a, console_grows (k a)) -> console_grows (bind m k).
Proof.
  intros Hm Hk w. unfold bind. specialize (Hm w).
  destruct (m w) as [[a|e|] w']; cbn in *; [|exact Hm|exact Hm].
  etransitivity; [exact Hm | apply Hk].
Qed.

Lemma grows_try_catch {A} (m : M A) (h : JsError -> M A) :
  console_grows m -> (forall e, console_grows (h e)) -> console_grows (try_catch m h).
Proof.
  intros Hm Hh w. unfold try_catch. specialize (Hm w).
  destruct (m w) as [[a|e|] w']; cbn in *; [exact Hm| |exact Hm].
  etransitivity; [exact Hm | apply Hh].
Qed.

Lemma grows_console_log (e : LogEntry) : console_grows (console_log e).
Proof. intros w. cbn. apply prefix_app_r. reflexivity. Qed.

Lemma grows_sessions_set (k : string) (v : value) : console_grows (sessions_set k v).
Proof. intros w. reflexivity. Qed.

Lemma grows_draw_uuid : console_grows (draw_uuid host).
Proof. intros w. reflexivity. Qed.

Lemma grows_spawn (cmd : string) (args : list string) : console_grows (spawn host cmd args).
Proof. intros w. reflexivity. Qed.

Lemma grows_if {A} (b : bool) (m1 m2 : M A) :
  console_grows m1 -> console_grows m2 -> console_grows (if b then m1 else m2).
Proof. destruct b; auto. Qed.

Lemma grows_format (v : value) : console_grows (format host v).
Proof. intros w. reflexivity. Qed.

Create HintDb grows discriminated.
#[local] Hint Resolve grows_ret grows_throw grows_bind grows_try_catch
  grows_console_log grows_sessions_set grows_draw_uuid grows_spawn grows_if
  grows_format : grows.

Lemma grows_call_tool (toolName toolArgs : value) :
  console_grows (call_tool config host toolName toolArgs).
Proof.
  unfold call_tool, sendToOpenClaw, searchMemory, listSessions.
  repeat apply grows_if; auto with grows.
  - apply grows_bind; [auto with grows|]. intros text.
    apply grows_bind; [auto with grows|]. intros _.
    apply grows_bind; [|auto with grows].
    destruct (prop toolArgs "message"); auto with grows.
  - destruct (readFileSync _ _); [|auto with grows].
    destruct (prop toolArgs "query"); auto with grows.
Qed.

(** Whatever else it does, a call of the dispatcher that gets past the
    formatting of its method leaves its [Handling method] line on the
    console. *)
Lemma handleRequest_logs_call (method params id : value) (w : World) (methodText : string) :
  ToString host method = Return methodText ->
  (console w ++ [LogHandling methodText])
    `prefix_of` console (snd (handleRequest config host method params id w)).
Proof.
  intros Hm. unfold handleRequest, bind at 1, format, await. rewrite Hm.
  unfold bind at 1.
  change (console w ++ [LogHandling methodText])
    with (console (snd (console_log (LogHandling methodText) w))).
  destruct (console_log (LogHandling methodText) w) as [[[]|e|] w1] eqn:E;
    try discriminate.
  cbn [snd].
  pose proof grows_call_tool.
  assert (Hrest : forall m : M value, console_grows m -> console w1 `prefix_of` console (snd (m w1)))
    by (intros m Hm'; apply Hm').
  apply Hrest.
  repeat lazymatch goal with
         | |- console_grows (bind _ _) => apply grows_bind; [|intros ?]
         | |- console_grows (try_catch _ _) => apply grows_try_catch; [|intros ?]
         | |- console_grows (if _ then _ else _) => apply grows_if
         end; auto with grows.
Qed.


(** *** The session map is write-only *)

Lemma ignores_ret {A} (a : A) : ignores_sessions (ret a).
Proof. intros w1 w2 H. split; [reflexivity|exact H]. Qed.

Lemma ignores_throw {A} (e : JsError) : ignores_sessions (@throw A e).
Proof. intros w1 w2 H. split; [reflexivity|exact H]. Qed.

Lemma ignores_bind {A B} (m : M A) (k : A -> M B) :
  ignores_sessions m -> (forall a, ignores_sessions (k a)) ->
  ignores_sessions (bind m k).
Proof.
  intros Hm Hk w1 w2 H. unfold bind.
  destruct (Hm w1 w2 H) as [Ho Hw].
  destruct (m w1) as [o1 w1'], (m w2) as [o2 w2']. cbn in Ho, Hw. subst o2.
  destruct o1 as [a|e|]; [apply Hk; exact Hw | |]; split; (reflexivity || exact Hw).
Qed.

Lemma ignores_try_catch {A} (m : M A) (h : JsError -> M A) :
  ignores_sessions m -> (forall e, ignores_sessions (h e)) ->
  ignores_sessions (try_catch m h).
Proof.
  intros Hm Hh w1 w2 H. unfold try_catch.
  destruct (Hm w1 w2 H) as [Ho Hw].
  destruct (m w1) as [o1 w1'], (m w2) as [o2 w2']. cbn in Ho, Hw. subst o2.
  destruct o1 as [a|e|]; [|apply Hh; exact Hw|]; split; (reflexivity || exact Hw).
Qed.

Lemma ignores_console_log (e : LogEntry) : ignores_sessions (console_log e).
Proof.
  intros w1 w2 (Hu & Hs & Hc). unfold console_log, same_but_sessions. cbn.
  rewrite Hc. repeat split; assumption.
Qed.

Lemma ignores_sessions_set (k : string) (v : value) : ignores_sessions (sessions_set k v).
Proof. intros w1 w2 H. split; [reflexivity|exact H]. Qed.

Lemma ignores_draw_uuid : ignores_sessions (draw_uuid host).
Proof.
  intros w1 w2 (Hu & Hs & Hc). unfold draw_uuid, same_but_sessions. cbn.
  rewrite Hu. repeat split; assumption.
Qed.

Lemma ignores_spawn (cmd : string) (args : list string) :
  ignores_sessions (spawn host cmd args).
Proof.
  intros w1 w2 (Hu & Hs & Hc). unfold spawn, same_but_sessions. cbn.
  rewrite Hs. repeat split; assumption.
Qed.

Lemma ignores_if {A} (b : bool) (m1 m2 : M A) :
  ignores_sessions m1 -> ignores_sessions m2 ->
  ignores_sessions (if b then m1 else m2).
Proof. destruct b; auto. Qed.

Lemma ignores_format (v : value) : ignores_sessions (format host v).
Proof. intros w1 w2 H. split; [reflexivity|exact H]. Qed.

Lemma ignores_destructure_body (b : value) : ignores_sessions (destructure_body b).
Proof. intros w1 w2 H. destruct b; (split; [reflexivity|exact H]). Qed.

Create HintDb ignores discriminated.
#[local] Hint Resolve ignores_ret ignores_throw ignores_bind ignores_try_catch
  ignores_console_log ignores_sessions_set ignores_draw_uuid ignores_spawn
  ignores_if ignores_format ignores_destructure_body : ignores.

(** One syntactic step through a computation, for [ignores_sessions]. *)
#[local] Ltac ignores_step :=
  lazymatch goal with
  | |- ignores_sessions (bind _ _) => apply ignores_bind; [|intros ?]
  | |- ignores_sessions (try_catch _ _) => apply ignores_try_catch; [|intros ?]
  | |- ignores_sessions (if _ then _ else _) => apply ignores_if
  end.

Lemma ignores_sendToOpenClaw (message : value) (timeout : Z) :
  ignores_sessions (sendToOpenClaw config host message timeout).
Proof. unfold sendToOpenClaw. destruct message; auto with ignores. Qed.

Lemma ignores_searchMemory (query : value) :
  ignores_sessions (searchMemory config host query).
Proof.
  unfold searchMemory.
  apply ignores_if; [auto with ignores|].
  destruct (readFileSync _ _); [|auto with ignores].
  destruct query; auto with ignores.
Qed.

Lemma ignores_listSessions : ignores_sessions (listSessions host).
Proof. unfold listSessions. auto with ignores. Qed.

#[local] Hint Resolve ignores_sendToOpenClaw ignores_searchMemory
  ignores_listSessions : ignores.

Lemma ignores_call_tool (toolName toolArgs : value) :
  ignores_sessions (call_tool config host toolName toolArgs).
Proof. unfold call_tool. auto 10 with ignores. Qed.

Lemma ignores_handleRequest (method params id : value) :
  ignores_sessions (handleRequest config host method params id).
Proof.
  unfold handleRequest.
  pose proof ignores_call_tool.
  repeat ignores_step; auto with ignores.
Qed.

Lemma ignores_post_mcp_handler (req : Request) :
  ignores_sessions (post_mcp_handler config host req).
Proof.
  unfold post_mcp_handler. cbv zeta.
  pose proof ignores_handleRequest.
  repeat ignores_step; auto with ignores.
  match goal with a : value |- _ => destruct a end; auto with ignores.
Qed.

Lemma ignores_post_mcp (req : Request) :
  ignores_sessions (post_mcp config host req).
Proof.
  unfold post_mcp, authenticate. cbv zeta.
  pose proof ignores_post_mcp_handler.
  destruct (authorization req); [|auto with ignores].
  repeat ignores_step; auto with ignores.
Qed.

(** C9.  [initialize] answers with the protocol version ["2024-11-05"]
    whatever the client sent: the answer is the same for any parameters,
    the client's version goes into the session record stored under the
    fresh identifier, and no answer of the server depends on the session
    map. *)
Theorem initialize_fixed_version (params id : value) (w : World) :
  let sessionId := randomUUID host (uuidsDrawn w) in
  let out := handleRequest config host (VStr "initialize") params id w in
  (exists response,
      fst out = Return response
      /\ prop (prop response "result") "protocolVersion" = VStr "2024-11-05")
  /\ sessions (snd out) !! sessionId
     = Some (VObj [("initialized", VBool true);
                   ("protocolVersion", prop params "protocolVersion");
                   ("clientInfo", prop params "clientInfo")])
  /\ (forall params',
        fst (handleRequest config host (VStr "initialize") params' id w) = fst out)
  /\ (forall req store,
        fst (post_mcp config host req (with_sessions store w))
        = fst (post_mcp config host req w)).
Proof.
  intros sessionId out. subst out sessionId.
  unfold handleRequest, draw_uuid. run.
  split; [eexists; split; reflexivity|].
  split; [apply lookup_insert_eq|].
  split; [reflexivity|].
  intros req store. apply ignores_post_mcp. repeat split.
Qed.


(** *** The tools *)

(** An object is truthy, so [args || {}] keeps an [args] that has the
    property. *)
Lemma or_else_has_prop (args : value) (k : string) (v : value) :
  prop args k = v -> v <> VUndefined -> or_else args (VObj []) = args.
Proof.
  intros Hp Hv. destruct args; cbn in Hp; try congruence. reflexivity.
Qed.

(** The listeners over a run of pipe events followed by more events. *)
Lemma settle_data (data rest : list ProcEvent) (stdout stderr : string) :
  forallb is_data data = true ->
  settle (data ++ rest) stdout stderr
  = settle rest (stdout +:+ stdout_of data) (stderr +:+ stderr_of data).
Proof.
  revert stdout stderr.
  induction data as [|e data IH]; intros stdout stderr Hd; cbn.
  - rewrite !string_app_nil_r. reflexivity.
  - cbn in Hd. apply andb_true_iff in Hd. destruct Hd as [He Hd].
    destruct e; try discriminate; cbn; rewrite IH by exact Hd;
      rewrite ?string_app_assoc; reflexivity.
Qed.

(** [escape_quotes] does what the specification says. *)
Lemma escape_quotes_escaped (m : string) : escaped m (escape_quotes m).
Proof.
  unfold escape_quotes.
  induction m as [|c m IH]; cbn; [constructor|].
  destruct (Ascii.eqb c DQUOTE) eqn:E.
  - apply Ascii.eqb_eq in E. subst c.
    unfold str. rewrite !string_app_cons, string_app_nil_l.
    constructor. exact IH.
  - apply Ascii.eqb_neq in E.
    unfold str. rewrite string_app_cons, string_app_nil_l.
    constructor; assumption.
Qed.

(** The specification's escaping determines its result. *)
Lemma escaped_functional (m m1 m2 : string) :
  escaped m m1 -> escaped m m2 -> m1 = m2.
Proof.
  intros H1. revert m2.
  induction H1 as [|m m' H IH|c m m' Hc H IH]; intros m2 H2;
    inversion H2; subst; try congruence; f_equal; auto.
  f_equal. auto.
Qed.

(** What the tool switch returns does not depend on the state. *)
Lemma call_tool_outcome_stateless (toolName toolArgs : value) (w1 w2 : World) :
  fst (call_tool config host toolName toolArgs w1)
  = fst (call_tool config host toolName toolArgs w2).
Proof.
  unfold call_tool, sendToOpenClaw, searchMemory, listSessions, spawn.
  repeat match goal with
         | |- context [if ?b then _ else _] => destruct b
         end; run; try reflexivity.
  - destruct (ToString host (prop toolArgs "message")); try reflexivity.
    destruct (prop toolArgs "message"); run; try reflexivity.
    destruct (settle _ _ _); reflexivity.
  - destruct (readFileSync _ _); [|reflexivity].
    destruct (prop toolArgs "query"); try reflexivity.
    destruct (_ =? _)%nat; reflexivity.
  - destruct (ToString host toolName); reflexivity.
Qed.

(** Only a tool named by a string returns. *)
Lemma call_tool_returns_named (toolName toolArgs : value) (w : World) (result : string) :
  fst (call_tool config host toolName toolArgs w) = Return result ->
  exists name, toolName = VStr name.
Proof.
  intros Hr. destruct toolName; try (eexists; reflexivity); exfalso;
    unfold call_tool in Hr; cbn [is_string] in Hr;
    unfold format, bind, await, throw in Hr;
    destruct (ToString host _); cbn in Hr; discriminate.
Qed.


(** C10.  When the tool switch ends without an exception and with the
    empty string, as [ask] and [sessions_status] do for an agent that
    exits 0 having written nothing but white space, the text block reads
    ["Success"]; this on both servers. *)
Theorem empty_output_reads_Success (params id : value) (w : World) :
  (fst (call_tool config host (prop params "name")
          (or_else (prop params "arguments") (VObj [])) w) = Return EmptyString ->
   fst (handleRequest config host (VStr "tools/call") params id w)
   = Return (tool_result id "Success"))
  /\ (fst (sdk_call_tool config host (prop params "name") (prop params "arguments") w)
      = Return EmptyString ->
      fst (sdk_CallToolRequest_handler config host params w)
      = Return (VObj [("content", VArr [text_block "Success"])]))
  /\ (forall data rest,
        prop params "name" = VStr "sessions_status" ->
        child_process host "openclaw" ["sessions"; "list"; "--limit"; "10"]
        = data ++ Close (Some 0%Z) :: rest ->
        forallb is_data data = true ->
        trim (stdout_of data) = EmptyString ->
        fst (handleRequest config host (VStr "tools/call") params id w)
        = Return (tool_result id "Success")
        /\ fst (sdk_CallToolRequest_handler config host params w)
           = Return (VObj [("content", VArr [text_block "Success"])])).
Proof.
  split; [|split].
  - intros Hempty.
    destruct (call_tool_returns_named _ _ _ _ Hempty) as [name Hname].
    rewrite (handleRequest_tools_call_named _ _ _ _ Hname). cbn zeta.
    match goal with
    | |- context [call_tool config host ?n ?a ?w0] =>
        pose proof (call_tool_outcome_stateless n a w0 w) as Hst;
        rewrite Hempty in Hst;
        destruct (call_tool config host n a w0) as [o w']
    end.
    cbn in Hst. subst o. reflexivity.
  - intros Hempty. rewrite sdk_handler_unfold.
    destruct (sdk_call_tool _ _ _ _ _) as [o w'].
    cbn in Hempty. subst o. reflexivity.
  - intros data rest Hname Hev Hdata Htrim.
    rewrite (handleRequest_tools_call_named _ _ _ _ Hname), sdk_handler_unfold. cbn zeta.
    unfold call_tool, sdk_call_tool, listSessions, spawn. rewrite Hname. run.
    rewrite Hev, settle_data by exact Hdata. cbn.
    rewrite string_app_nil_l, Htrim.
    split; reflexivity.
Qed.


(** The lines [filter] keeps stay in the order of the file. *)
Lemma filter_sublist {A} (f : A -> bool) (l : list A) :
  List.filter f l `sublist_of` l.
Proof.
  induction l as [|x l IH]; cbn; [constructor|].
  destruct (f x); [apply sublist_skip | apply sublist_cons]; exact IH.
Qed.

Lemma filter_nil_iff {A} (f : A -> bool) (l : list A) :
  List.filter f l = [] <-> forall x, In x l -> f x = false.
Proof.
  induction l as [|x l IH]; cbn; [tauto|].
  destruct (f x) eqn:E; split.
  - discriminate.
  - intros H. specialize (H x (or_introl eq_refl)). congruence.
  - intros H y [<-|Hy]; [exact E|]. apply IH; assumption.
  - intros H. apply IH. intros y Hy. apply H. right. exact Hy.
Qed.

(** [searchMemory] on a string, by cases on the file. *)
Lemma searchMemory_string (q : string) (w : World) :
  let memoryPath := path_join host (workspace config) "MEMORY.md" in
  searchMemory config host (VStr q) w
  = if existsSync host memoryPath then
      match readFileSync host memoryPath with
      | inl content =>
          let matches := List.filter (line_matches host q) (split LF content) in
          match matches with
          | [] => (Return (no_result_text q), w)
          | _ :: _ => (Return (found_text (List.length matches) (firstn 10 matches)), w)
          end
      | inr e => (Throw e, w)
      end
    else (Return NOT_FOUND_TEXT, w).
Proof.
  unfold searchMemory. cbv zeta.
  destruct (existsSync _ _); [|reflexivity]. cbn [negb].
  destruct (readFileSync _ _) as [content|e]; [|reflexivity].
  destruct (List.filter _ _); reflexivity.
Qed.

(** C1.  [memory_search] with a non-empty query string, on both servers:
    without a [MEMORY.md] the answer is the fixed not-found text in an
    ordinary text block; with a readable one of which no line contains
    the query, both lower-cased, the answer names the query and says that
    nothing was found; otherwise the text is a header with the number of
    all matching lines, followed by the first ten of them at most, in the
    order of the file. *)
Theorem memory_search_contract (params id : value) (q : string) (w : World) :
  prop params "name" = VStr "memory_search" ->
  prop (prop params "arguments") "query" = VStr q ->
  q <> EmptyString ->
  let memoryPath := path_join host (workspace config) "MEMORY.md" in
  let answers (text : string) : Prop :=
    fst (handleRequest config host (VStr "tools/call") params id w)
    = Return (VObj [("jsonrpc", VStr "2.0"); ("id", id);
                    ("result", VObj [("content", VArr [text_block text])])])
    /\ fst (sdk_CallToolRequest_handler config host params w)
       = Return (VObj [("content", VArr [text_block text])]) in
  (existsSync host memoryPath = false ->
   answers "MEMORY.md não encontrado no workspace")
  /\ (forall content,
        existsSync host memoryPath = true ->
        readFileSync host memoryPath = inl content ->
        let lines := split LF content in
        let matches := List.filter (line_matches host q) lines in
        let shown := firstn 10 matches in
        ((forall line, In line lines ->
                       includes (toLowerCase host line) (toLowerCase host q) = false) ->
         answers ("Nenhum resultado encontrado para " +:+ str DQUOTE +:+ q
                  +:+ str DQUOTE +:+ " na memória."))
        /\ ((exists line, In line lines
                          /\ includes (toLowerCase host line) (toLowerCase host q) = true) ->
            answers ("Encontrados " +:+ nat_to_string (List.length matches)
                     +:+ " resultados:" +:+ str LF +:+ str LF
                     +:+ join (str LF) shown)
            /\ (List.length shown <= 10)%nat
            /\ shown `prefix_of` matches
            /\ matches `sublist_of` lines
            /\ (forall line, In line matches <->
                             In line lines
                             /\ includes (toLowerCase host line) (toLowerCase host q) = true))).
Proof.
  intros Hname Hquery Hq memoryPath answers.
  assert (Hargs : or_else (prop params "arguments") (VObj []) = prop params "arguments").
  { eapply or_else_has_prop; [exact Hquery | discriminate]. }
  assert (Htruthy : truthy (VStr q) = true).
  { cbn. apply negb_true_iff, String.eqb_neq, Hq. }
  assert (Hrun : forall text,
             (forall w0, searchMemory config host (VStr q) w0 = (Return text, w0)) ->
             or_success text = text ->
             answers text).
  { intros text Hs Hne. unfold answers. split.
    - rewrite (handleRequest_tools_call_named _ _ _ _ Hname). cbn zeta.
      unfold call_tool. rewrite Hname, Hargs, Hquery, Htruthy. cbn.
      rewrite Hs, Hne. reflexivity.
    - rewrite sdk_handler_unfold.
      unfold sdk_call_tool. rewrite Hname, Hquery, Htruthy. cbn.
      rewrite Hs, Hne. reflexivity. }
  split.
  - intros Habsent. apply Hrun; [|reflexivity].
    intros w0. rewrite searchMemory_string. cbv zeta.
    fold memoryPath. rewrite Habsent. reflexivity.
  - intros content Hexists Hread lines matches shown. split.
    + intros Hnone. apply Hrun; [|reflexivity].
      intros w0. rewrite searchMemory_string. cbv zeta.
      fold memoryPath. rewrite Hexists, Hread. fold lines.
      assert (Hm : List.filter (line_matches host q) lines = []).
      { apply filter_nil_iff. exact Hnone. }
      rewrite Hm. reflexivity.
    + intros (line & Hin & Hmatch).
      assert (Hm : matches <> []).
      { intros Hm. subst matches. rewrite filter_nil_iff in Hm. specialize (Hm line Hin).
        unfold line_matches in Hm. congruence. }
      split; [|split; [|split; [|split]]].
      * apply Hrun; [|reflexivity].
        intros w0. rewrite searchMemory_string. cbv zeta.
        fold memoryPath. rewrite Hexists, Hread. fold lines. fold matches.
        destruct matches; [contradiction|reflexivity].
      * subst shown. rewrite length_firstn. lia.
      * subst shown. apply prefix_take.
      * apply filter_sublist.
      * intros l. subst matches. rewrite List.filter_In. reflexivity.
Qed.

(** [ask] with a message that is not a string: [spawn] is not called, and
    the answer is an error-flagged block, the guard's for the falsy
    values, the formatter's for an object it cannot print, and the failed
    [message.replace]'s for the others. *)
Lemma ask_message_not_a_string (params id : value) (w : World) :
  prop params "name" = VStr "ask" ->
  let message := prop (or_else (prop params "arguments") (VObj [])) "message" in
  let out := handleRequest config host (VStr "tools/call") params id w in
  (forall m, message <> VStr m) ->
  spawned (snd out) = spawned w
  /\ fst out
     = Return (tool_error id
                 (if truthy message then
                    match ToString host message with
                    | Throw _ => "Error: Cannot convert object to primitive value"
                    | _ => "Error: message.replace is not a function"
                    end
                  else "Error: Missing 'message' argument")).
Proof.
  intros Hname message out Hns.
  subst out. rewrite (handleRequest_tools_call_named _ _ _ _ Hname). cbn zeta. fold message.
  unfold call_tool. rewrite Hname. cbn [is_string String.eqb Ascii.eqb Bool.eqb].
  cbn match. fold message.
  destruct (truthy message) eqn:Ht; run; [|split; reflexivity].
  destruct (ToString_cases message) as [[text Hok]|Hko].
  - rewrite Hok. unfold sendToOpenClaw.
    destruct message; try (run; split; reflexivity).
    exfalso. eapply Hns. reflexivity.
  - rewrite Hko. split; reflexivity.
Qed.

(** C5, as amended.  [ask]: a message that is missing or falsy (the empty
    string, [null], [false], 0) is answered by an error-flagged text
    block and [spawn] is not called; for a non-empty string, [spawn] is
    called with [openclaw] and the arguments [sessions send --label
    <label> --message m' --timeout 120], each double quote of the message
    preceded by a backslash in [m']; an exit code other than 0 is
    answered by an error-flagged block with what the agent wrote on its
    standard error, a failure to spawn by one with the failure's reason,
    and an argument [spawn] refuses (a NUL byte) by one with that
    refusal; any other message (a number, an array, an object) is
    answered by an error-flagged block as well, and [spawn] is not
    called. *)
Theorem ask_contract (params id : value) (w : World) :
  prop params "name" = VStr "ask" ->
  let message := prop (or_else (prop params "arguments") (VObj [])) "message" in
  let out := handleRequest config host (VStr "tools/call") params id w in
  (truthy message = false ->
   fst out = Return (tool_error id "Error: Missing 'message' argument")
   /\ spawned (snd out) = spawned w)
  /\ (forall m m',
        message = VStr m -> m <> EmptyString ->
        escaped m m' ->
        let argv := ["sessions"; "send"; "--label"; sessionLabel config;
                     "--message"; m'; "--timeout"; "120"] in
        spawned (snd out) = spawned w ++ [("openclaw", argv)]
        /\ (forall data code rest,
              child_process host "openclaw" argv = data ++ Close (Some code) :: rest ->
              forallb is_data data = true ->
              code <> 0%Z ->
              fst out
              = Return (tool_error id
                          ("Error: OpenClaw exited with code " +:+ Z_to_string code
                           +:+ ": " +:+ stderr_of data)))
        /\ (forall data reason rest,
              child_process host "openclaw" argv = data ++ ErrorEvent reason :: rest ->
              forallb is_data data = true ->
              fst out
              = Return (tool_error id ("Error: Failed to spawn openclaw: " +:+ reason)))
        /\ (forall detail rest,
              child_process host "openclaw" argv = InvalidArg detail :: rest ->
              fst out = Return (tool_error id ("Error: The argument " +:+ detail))))
  /\ (truthy message = true -> (forall m, message <> VStr m) ->
      spawned (snd out) = spawned w
      /\ exists reason,
          fst out = Return (tool_error id ("Error: " +:+ reason))
          /\ (reason = "message.replace is not a function"
              \/ reason = "Cannot convert object to primitive value")).
Proof.
  intros Hname message out.
  split; [|split].
  - subst out. intros Hfalsy.
    rewrite (handleRequest_tools_call_named _ _ _ _ Hname). cbn zeta. fold message.
    unfold call_tool. rewrite Hname. cbn [is_string String.eqb Ascii.eqb Bool.eqb].
    cbn match. fold message. rewrite Hfalsy. run. split; reflexivity.
  - subst out. intros m m' Hm Hne Hesc.
    rewrite (handleRequest_tools_call_named _ _ _ _ Hname). cbn zeta. fold message.
    unfold call_tool. rewrite Hname. cbn [is_string String.eqb Ascii.eqb Bool.eqb].
    cbn match. fold message. rewrite Hm.
    assert (Htruthy : truthy (VStr m) = true).
    { cbn. apply negb_true_iff, String.eqb_neq, Hne. }
    rewrite Htruthy.
    rewrite (escaped_functional m m' (escape_quotes m) Hesc (escape_quotes_escaped m)).
    cbv zeta. unfold sendToOpenClaw, spawn. run.
    change (Z_to_string 120) with "120".
    set (argv := ["sessions"; "send"; "--label"; sessionLabel config;
                  "--message"; escape_quotes m; "--timeout"; "120"]).
    split; [|split; [|split]].
    + destruct (settle _ _ _); reflexivity.
    + intros data code rest Hev Hdata Hcode.
      rewrite Hev, settle_data by exact Hdata. cbn.
      rewrite !string_app_nil_l.
      destruct code as [|p|p]; [contradiction| |]; reflexivity.
    + intros data reason rest Hev Hdata.
      rewrite Hev, settle_data by exact Hdata. reflexivity.
    + intros detail rest Hev. rewrite Hev. reflexivity.
  - intros Htruthy Hns.
    destruct (ask_message_not_a_string params id w Hname Hns) as [Hsp Hout].
    split; [exact Hsp|].
    subst out. rewrite Hout. fold message. rewrite Htruthy.
    destruct (ToString host message); eexists; (split; [reflexivity|]); tauto.
Qed.

(** A [MEMORY.md] that is there but cannot be read (a directory, a file
    of another user) ends in the error-flagged block with the read
    error. *)
Lemma memory_search_unreadable (params id : value) (q : string) (w : World) (e : JsError) :
  prop params "name" = VStr "memory_search" ->
  prop (prop params "arguments") "query" = VStr q ->
  q <> EmptyString ->
  existsSync host (path_join host (workspace config) "MEMORY.md") = true ->
  readFileSync host (path_join host (workspace config) "MEMORY.md") = inr e ->
  fst (handleRequest config host (VStr "tools/call") params id w)
  = Return (tool_error id ("Error: " +:+ error_message e)).
Proof.
  intros Hname Hquery Hq Hexists Hread.
  assert (Hargs : or_else (prop params "arguments") (VObj []) = prop params "arguments").
  { eapply or_else_has_prop; [exact Hquery | discriminate]. }
  assert (Htruthy : truthy (VStr q) = true).
  { cbn. apply negb_true_iff, String.eqb_neq, Hq. }
  rewrite (handleRequest_tools_call_named _ _ _ _ Hname). cbn zeta.
  unfold call_tool. rewrite Hname, Hargs, Hquery, Htruthy. cbn.
  rewrite searchMemory_string. cbv zeta. rewrite Hexists, Hread. reflexivity.
Qed.

(** *** More on the authenticator and the route *)

Lemma prefix_split (p s : string) :
  String.prefix p s = true -> s = p +:+ substring_from (String.length p) s.
Proof.
  revert s. induction p as [|a p IH]; intros s Hp; [reflexivity|].
  destruct s as [|b s]; [discriminate|].
  cbn in Hp. destruct (ascii_dec a b) as [->|]; [|discriminate].
  rewrite string_app_cons. cbn [String.length substring_from].
  f_equal. apply IH, Hp.
Qed.

(** A request passes the authenticator with the configured key and with
    nothing else. *)
Lemma authenticate_authorized (req : Request) (next : Request -> M Response) (w : World) :
  (authorized config req /\ authenticate config req next w = next req w)
  \/ (exists code msg,
         (code = 401%Z \/ code = 403%Z)
         /\ ~ authorized config req
         /\ authenticate config req next w
            = (Return (send_json code (rpc_error (-32600) msg VNull)), w)).
Proof.
  unfold authenticate, authorized.
  destruct (authorization req) as [h|];
    [|right; do 2 eexists; split; [left; reflexivity|]; split; [discriminate|reflexivity]].
  destruct (String.eqb h EmptyString) eqn:Hemp.
  { right. do 2 eexists. split; [left; reflexivity|]. split; [|reflexivity].
    apply String.eqb_eq in Hemp. subst h. discriminate. }
  destruct (startsWith h "Bearer ") eqn:Hpre; cbn [orb negb].
  2:{ right. do 2 eexists. split; [left; reflexivity|]. split; [|reflexivity].
      intros [= ->]. rewrite startsWith_bearer in Hpre. discriminate. }
  destruct (String.eqb (substring_from 7 h) (apiKey config)) eqn:Hkey; cbn [negb].
  2:{ right. do 2 eexists. split; [right; reflexivity|]. split; [|reflexivity].
      intros [= ->]. rewrite substring_bearer, String.eqb_refl in Hkey. discriminate. }
  left. split; [|reflexivity]. f_equal.
  apply String.eqb_eq in Hkey. rewrite <- Hkey.
  apply (prefix_split "Bearer " h). exact Hpre.
Qed.

(** The dispatcher returns [null] for [initialized] and for nothing else. *)
Lemma handleRequest_null_iff (method params id : value) (w : World) (response : value) :
  fst (handleRequest config host method params id w) = Return response ->
  (response = VNull <-> method = VStr "initialized").
Proof.
  intros Hret.
  destruct (is_string method "initialized") eqn:Hinit.
  - apply is_string_true in Hinit. subst method. cbn in Hret.
    inversion Hret. split; reflexivity.
  - assert (Hne : method <> VStr "initialized").
    { intros Heq. apply is_string_true in Heq. congruence. }
    destruct (handleRequest_id _ _ _ _ _ Hret Hne) as [Hnn _].
    split; [intros ->; contradiction | intros Hm; contradiction].
Qed.

(** An envelope is valid or it is not. *)
Lemma valid_envelope_dec (req : Request) :
  valid_envelope req \/ prop (body req) "jsonrpc" <> VStr "2.0".
Proof.
  unfold valid_envelope.
  destruct (is_string (prop (body req) "jsonrpc") "2.0") eqn:E.
  - left. apply is_string_true, E.
  - right. intros Heq. apply is_string_true in Heq. congruence.
Qed.

(** An invalid envelope: the handler of the route rejects, the state
    untouched, or sends its 400, one line on the console. *)
Lemma post_mcp_handler_invalid_cases (req : Request) (w : World) :
  prop (body req) "jsonrpc" <> VStr "2.0" ->
  (exists reason, post_mcp_handler config host req w = (Throw (TypeError reason), w))
  \/ (exists methodText idText,
         post_mcp_handler config host req w
         = (Return (send_json 400 (rpc_error (-32600) "Invalid JSON-RPC version" VNull)),
            logged [LogPost methodText idText] w)).
Proof.
  intros Hbad. unfold post_mcp_handler, destructure_body. cbv zeta.
  rewrite (is_string_false _ _ Hbad).
  remember (prop (body req) "method") as m.
  remember (prop (body req) "id") as i.
  destruct (body req); try (left; eexists; reflexivity); run;
    (destruct (ToString_cases m) as [[mt Hm]|Hm]; rewrite Hm; cbn;
       [|left; eexists; reflexivity];
     destruct (ToString_cases i) as [[it Hi]|Hi]; rewrite Hi; cbn;
       [|left; eexists; reflexivity]);
    right; do 2 eexists; reflexivity.
Qed.

(** The handler of the route does reject in each of those cases. *)
Lemma post_mcp_handler_rejects (req : Request) (w : World) :
  body req = VUndefined \/ body req = VNull
  \/ ToString host (prop (body req) "method") = Throw CANNOT_CONVERT
  \/ ToString host (prop (body req) "id") = Throw CANNOT_CONVERT ->
  exists reason, post_mcp_handler config host req w = (Throw (TypeError reason), w).
Proof.
  unfold post_mcp_handler, destructure_body. cbv zeta.
  remember (prop (body req) "method") as m.
  remember (prop (body req) "id") as i.
  remember (prop (body req) "jsonrpc") as j.
  remember (prop (body req) "params") as p.
  intros Hcase.
  assert (Hfmt : ToString host m = Throw CANNOT_CONVERT
                 \/ ToString host i = Throw CANNOT_CONVERT
                 \/ body req = VUndefined \/ body req = VNull) by tauto.
  clear Hcase.
  destruct (body req); try (eexists; reflexivity); run;
    (destruct Hfmt as [Hm|[Hi|[Hb|Hb]]]; try discriminate;
     [ rewrite Hm; eexists; reflexivity
     | destruct (ToString_cases m) as [[mt Hm]|Hm]; rewrite Hm; cbn;
         [rewrite Hi|]; eexists; reflexivity ]).
Qed.

(** X6.  The authenticator is exact, on both servers: unless the header
    is the very text [Bearer ] followed by the configured key, the rest of
    the route does not run and the state is not touched; the answer is 403
    when the header names the [Bearer] scheme and 401 when it does not. *)
Theorem authenticate_exact (req : Request) (next : Request -> M Response) (w : World) :
  authorization req <> Some ("Bearer " +:+ apiKey config) ->
  let code := if has_bearer req then 403%Z else 401%Z in
  let msg := if has_bearer req then "Invalid API key"
             else "Missing or invalid authorization header" in
  authenticate config req next w
  = (Return (send_json code (rpc_error (-32600) msg VNull)), w)
  /\ sdk_authenticate config req next w
     = (Return (send_json code (VObj [("error", VStr msg)])), w).
Proof.
  intros Hne. unfold authenticate, sdk_authenticate, has_bearer.
  destruct (authorization req) as [h|]; [|split; reflexivity].
  destruct (String.eqb h EmptyString) eqn:Hemp.
  { apply String.eqb_eq in Hemp. subst h. split; reflexivity. }
  destruct (startsWith h "Bearer ") eqn:Hpre; cbn [orb negb]; [|split; reflexivity].
  destruct (String.eqb (substring_from 7 h) (apiKey config)) eqn:Hkey;
    cbn [negb]; [|split; reflexivity].
  exfalso. apply Hne. f_equal.
  apply String.eqb_eq in Hkey. rewrite <- Hkey.
  apply (prefix_split "Bearer " h). exact Hpre.
Qed.


(** X13.  What makes a valid [POST] a notification is its method, not a
    missing identifier: the answer is the empty 202 exactly when the
    method is [initialized]; any other method that is answered gets an
    envelope under the request's identifier, with or without an [id] in
    the request, with the status 200, or 500 when the dispatcher threw. *)
Theorem notification_by_method (req : Request) (w : World) (sent : Response) :
  authorized config req -> valid_envelope req ->
  fst (post_mcp config host req w) = Return sent ->
  (status sent = 202%Z <-> prop (body req) "method" = VStr "initialized")
  /\ (payload sent = None <-> prop (body req) "method" = VStr "initialized")
  /\ (prop (body req) "method" <> VStr "initialized" ->
      (status sent = 200%Z \/ sent = internal_error (prop (body req) "id"))
      /\ exists envelope,
           payload sent = Some envelope
           /\ prop envelope "id" = prop (body req) "id").
Proof.
  intros Hauth Hv Hsent.
  rewrite post_mcp_authorized, post_mcp_handler_valid in Hsent by assumption.
  cbn zeta in Hsent.
  destruct (ToString host (prop (body req) "method")) as [mt|e|] eqn:Hm; try discriminate.
  destruct (ToString host (prop (body req) "id")) as [it|e|]; try discriminate.
  destruct (handleRequest _ _ _ _ _ _) as [[r|e|] w'] eqn:E.
  - assert (Hr : fst (handleRequest config host (prop (body req) "method")
                        (or_else (prop (body req) "params") (VObj []))
                        (prop (body req) "id") (logged [LogPost mt it] w))
                 = Return r) by (rewrite E; reflexivity).
    pose proof (handleRequest_null_iff _ _ _ _ _ Hr) as Hnull.
    destruct (is_string (prop (body req) "method") "initialized") eqn:Hinit.
    + apply is_string_true in Hinit.
      assert (r = VNull) by (apply Hnull, Hinit). subst r.
      cbn in Hsent. inversion Hsent; subst. cbn.
      split; [tauto|]. split; [tauto|]. contradiction.
    + assert (Hne : prop (body req) "method" <> VStr "initialized").
      { intros Heq. apply is_string_true in Heq. congruence. }
      destruct (handleRequest_id _ _ _ _ _ Hr Hne) as [Hnn Hid].
      assert (Hs : sent = send_json 200 r)
        by (destruct r; try contradiction; cbn in Hsent; inversion Hsent; reflexivity).
      subst sent. cbn.
      split; [split; [discriminate|contradiction]|].
      split; [split; [discriminate|contradiction]|].
      intros _. split; [left; reflexivity|]. exists r. split; [reflexivity|exact Hid].
  - assert (He : fst (handleRequest config host (prop (body req) "method")
                        (or_else (prop (body req) "params") (VObj []))
                        (prop (body req) "id") (logged [LogPost mt it] w))
                 = Throw e) by (rewrite E; reflexivity).
    apply handleRequest_throws in He. destruct He as [-> Hwhy].
    destruct Hwhy as [Hko|[Hcall Hname]]; [congruence|].
    cbn in Hsent. inversion Hsent; subst. cbn.
    split; [split; [discriminate|rewrite Hcall; discriminate]|].
    split; [split; [discriminate|rewrite Hcall; discriminate]|].
    intros _. split; [right; reflexivity|]. eexists. split; reflexivity.
  - discriminate.
Qed.


(** *** More on the tools *)

(** [(args || {}).k] and [args?.k] read the same value. *)
Lemma prop_or_else (args : value) (k : string) :
  prop (or_else args (VObj [])) k = prop args k.
Proof.
  unfold or_else. destruct (truthy args) eqn:Ht; [reflexivity|].
  destruct args; try reflexivity; discriminate.
Qed.

(** The promise stays pending exactly when the process only ever writes. *)
Lemma settle_pending_iff (events : list ProcEvent) (stdout stderr : string) :
  settle events stdout stderr = Pending <-> forallb is_data events = true.
Proof.
  revert stdout stderr.
  induction events as [|e events IH]; intros stdout stderr; [cbn; tauto|].
  destruct e as [d|d|code|msg|detail]; cbn.
  - apply IH.
  - apply IH.
  - split; [|discriminate]. destruct code as [[|p|p]|]; discriminate.
  - split; discriminate.
  - split; discriminate.
Qed.

(** The tool switch does not call [spawn] and ends, or calls it once, for
    [openclaw], to list the sessions or to send a string, and ends as
    that call does. *)
Lemma call_tool_run (toolName toolArgs : value) (w : World) :
  let out := call_tool config host toolName toolArgs w in
  (spawned (snd out) = spawned w /\ fst out <> Pending)
  \/ (exists argv,
         (argv = LIST_ARGV
          \/ exists m, prop toolArgs "message" = VStr m /\ m <> EmptyString
                       /\ toolName = VStr "ask"
                       /\ argv = ["sessions"; "send"; "--label"; sessionLabel config;
                                  "--message"; escape_quotes m; "--timeout"; "120"])
         /\ spawned (snd out) = spawned w ++ [("openclaw", argv)]
         /\ fst out = settle (child_process host "openclaw" argv) EmptyString EmptyString).
Proof.
  unfold call_tool.
  destruct (is_string toolName "ask") eqn:Hask.
  { apply is_string_true in Hask.
    destruct (truthy (prop toolArgs "message")) eqn:Ht; cbn [negb].
    2:{ left. split; [reflexivity|discriminate]. }
    destruct (ToString_cases (prop toolArgs "message")) as [[text Hfmt]|Hfmt];
      unfold format, await, bind at 1; rewrite Hfmt;
      [|left; split; [reflexivity|discriminate]].
    unfold sendToOpenClaw.
    destruct (prop toolArgs "message") as [| |b|n|m|l|f] eqn:Hm;
      try (left; run; split; [reflexivity|discriminate]).
    right. eexists. split.
    { right. exists m. repeat split; try assumption.
      intros ->. discriminate. }
    unfold spawn. run. change (Z_to_string 120) with "120".
    destruct (settle _ _ _); split; reflexivity. }
  destruct (is_string toolName "memory_search").
  { left. destruct (truthy (prop toolArgs "query")); cbn [negb];
      [|split; [reflexivity|discriminate]].
    unfold searchMemory. cbv zeta.
    destruct (existsSync _ _); cbn [negb]; [|split; [reflexivity|discriminate]].
    destruct (readFileSync _ _); [|split; [reflexivity|discriminate]].
    destruct (prop toolArgs "query"); try (split; [reflexivity|discriminate]).
    destruct (_ =? _)%nat; split; (reflexivity || discriminate). }
  destruct (is_string toolName "sessions_status").
  { right. exists LIST_ARGV. split; [left; reflexivity|].
    unfold listSessions, spawn. run.
    destruct (settle _ _ _); split; reflexivity. }
  left. run.
  destruct (ToString_cases toolName) as [[text H]|H]; rewrite H;
    (split; [reflexivity|discriminate]).
Qed.


(** The spawned processes of a state that only got console lines. *)
Lemma spawned_logged (entries : list LogEntry) (w : World) :
  spawned (logged entries w) = spawned w.
Proof. reflexivity. Qed.


(** X1.  [ask] with a non-empty string, to an agent that exits 0: both
    servers answer with an ordinary text block holding the agent's
    standard output, the chunks in order and white space trimmed at both
    ends (["Success"] if nothing is left). *)
Theorem ask_success (params id : value) (w : World) (m : string)
    (data rest : list ProcEvent) :
  prop params "name" = VStr "ask" ->
  prop (prop params "arguments") "message" = VStr m ->
  m <> EmptyString ->
  child_process host "openclaw"
    ["sessions"; "send"; "--label"; sessionLabel config;
     "--message"; escape_quotes m; "--timeout"; "120"]
  = data ++ Close (Some 0%Z) :: rest ->
  forallb is_data data = true ->
  fst (handleRequest config host (VStr "tools/call") params id w)
  = Return (tool_result id (or_success (trim (stdout_of data))))
  /\ fst (sdk_CallToolRequest_handler config host params w)
     = Return (VObj [("content", VArr [text_block (or_success (trim (stdout_of data)))])]).
Proof.
  intros Hname Hmsg Hne Hev Hdata.
  assert (Htruthy : truthy (VStr m) = true).
  { cbn. apply negb_true_iff, String.eqb_neq, Hne. }
  rewrite (handleRequest_tools_call_named _ _ _ _ Hname), sdk_handler_unfold. cbn zeta.
  unfold call_tool, sdk_call_tool. rewrite prop_or_else, Hname, Hmsg, Htruthy.
  cbn [is_string String.eqb Ascii.eqb Bool.eqb negb]. cbn match.
  unfold sendToOpenClaw, spawn. run. change (Z_to_string 120) with "120".
  rewrite Hev, settle_data by exact Hdata. cbn.
  rewrite string_app_nil_l. split; reflexivity.
Qed.

(** X2.  [sessions_status], whatever its arguments: [openclaw sessions
    list --limit 10] is spawned, once; exit 0 gives the trimmed standard
    output in an ordinary text block, any other exit code, or none (a
    process ended by a signal), an error-flagged block with the standard
    error, and a failure to spawn an error-flagged block with its
    reason. *)
Theorem sessions_status_contract (params id : value) (w : World) :
  prop params "name" = VStr "sessions_status" ->
  let out := handleRequest config host (VStr "tools/call") params id w in
  spawned (snd out) = spawned w ++ [("openclaw", ["sessions"; "list"; "--limit"; "10"])]
  /\ forall data rest,
       forallb is_data data = true ->
       (child_process host "openclaw" LIST_ARGV = data ++ Close (Some 0%Z) :: rest ->
        fst out = Return (tool_result id (or_success (trim (stdout_of data)))))
       /\ (forall code,
             child_process host "openclaw" LIST_ARGV = data ++ Close (Some code) :: rest ->
             code <> 0%Z ->
             fst out = Return (tool_error id ("Error: OpenClaw exited with code "
                                              +:+ Z_to_string code +:+ ": "
                                              +:+ stderr_of data)))
       /\ (child_process host "openclaw" LIST_ARGV = data ++ Close None :: rest ->
           fst out = Return (tool_error id ("Error: OpenClaw exited with code null: "
                                            +:+ stderr_of data)))
       /\ (forall reason,
             child_process host "openclaw" LIST_ARGV = data ++ ErrorEvent reason :: rest ->
             fst out = Return (tool_error id ("Error: Failed to spawn openclaw: " +:+ reason))).
Proof.
  intros Hname out. subst out.
  rewrite (handleRequest_tools_call_named _ _ _ _ Hname). cbn zeta.
  unfold call_tool. rewrite Hname.
  cbn [is_string String.eqb Ascii.eqb Bool.eqb]. cbn match.
  unfold listSessions, spawn, LIST_ARGV. run.
  split; [destruct (settle _ _ _); reflexivity|].
  intros data rest Hdata. repeat split.
  - intros Hev. rewrite Hev, settle_data by exact Hdata. cbn.
    rewrite string_app_nil_l. reflexivity.
  - intros code Hev Hcode. rewrite Hev, settle_data by exact Hdata. cbn.
    rewrite !string_app_nil_l.
    destruct code as [|p|p]; [contradiction| |]; reflexivity.
  - intros Hev. rewrite Hev, settle_data by exact Hdata. cbn.
    rewrite !string_app_nil_l. reflexivity.
  - intros reason Hev. rewrite Hev, settle_data by exact Hdata. reflexivity.
Qed.

(** X4.  The first ['close'] or ['error'] of the child decides, and what
    it emits afterwards changes nothing: an ['error'] followed by a
    ['close'], as for a program that is not installed, is reported as the
    failure to spawn. *)
Theorem first_settlement_wins (data rest1 rest2 : list ProcEvent) (e : ProcEvent)
    (stdout stderr : string) :
  forallb is_data data = true ->
  is_data e = false ->
  settle (data ++ e :: rest1) stdout stderr = settle (data ++ e :: rest2) stdout stderr
  /\ settle (data ++ e :: rest1) stdout stderr <> Pending
  /\ (forall reason,
        e = ErrorEvent reason ->
        settle (data ++ e :: rest1) stdout stderr
        = Throw (Error ("Failed to spawn openclaw: " +:+ reason))).
Proof.
  intros Hdata He. rewrite !settle_data by exact Hdata.
  destruct e as [d|d|code|msg|detail]; try discriminate; cbn.
  - repeat split; [destruct code as [[|p|p]|]; discriminate | discriminate].
  - repeat split; [discriminate|]. intros reason [= ->]. reflexivity.
  - repeat split; discriminate.
Qed.

(** X7.  [memory_search] without a query, or with a falsy one (the empty
    string, [null], [false], 0): both servers answer with the
    error-flagged block ["Error: Missing 'query' argument"], whatever the
    file system holds, and nothing is spawned. *)
Theorem memory_search_missing_query (params id : value) (w : World) :
  prop params "name" = VStr "memory_search" ->
  truthy (prop (prop params "arguments") "query") = false ->
  let out := handleRequest config host (VStr "tools/call") params id w in
  fst out = Return (tool_error id "Error: Missing 'query' argument")
  /\ spawned (snd out) = spawned w
  /\ sdk_CallToolRequest_handler config host params w
     = (Return (VObj [("content", VArr [text_block "Error: Missing 'query' argument"]);
                      ("isError", VBool true)]), w).
Proof.
  intros Hname Hfalsy out. subst out.
  rewrite (handleRequest_tools_call_named _ _ _ _ Hname), sdk_handler_unfold. cbn zeta.
  unfold call_tool, sdk_call_tool. rewrite !prop_or_else, Hname, Hfalsy.
  cbn. repeat split; reflexivity.
Qed.


(** *** What a request spawns, and when it goes unanswered *)

(** The dispatcher, like the tool switch: no call of [spawn] and an end,
    or one call, for [openclaw], and the end that call has. *)
Lemma handleRequest_run (method params id : value) (w : World) :
  let out := handleRequest config host method params id w in
  (spawned (snd out) = spawned w /\ fst out <> Pending)
  \/ (exists argv,
         (argv = LIST_ARGV
          \/ exists m, m <> EmptyString
                       /\ argv = ["sessions"; "send"; "--label"; sessionLabel config;
                                  "--message"; escape_quotes m; "--timeout"; "120"])
         /\ method = VStr "tools/call"
         /\ spawned (snd out) = spawned w ++ [("openclaw", argv)]
         /\ (fst out = Pending
             <-> forallb is_data (child_process host "openclaw" argv) = true)).
Proof.
  destruct (is_string method "tools/call") eqn:Hcall.
  - apply is_string_true in Hcall. subst method.
    rewrite handleRequest_tools_call. cbn zeta.
    destruct (ToString_cases (prop params "name")) as [[nameText Hn]|Hn]; rewrite Hn;
      [|left; split; [reflexivity|discriminate]].
    match goal with
    | |- context [call_tool config host ?n ?a ?w0] =>
        destruct (call_tool_run n a w0) as [[Hs Hp] | (argv & Hshape & Hs & Ho)];
        destruct (call_tool config host n a w0) as [o w']
    end; cbn in *.
    + left. destruct o; cbn; (split; [exact Hs | congruence]).
    + right. exists argv. split.
      { destruct Hshape as [-> | (m & _ & Hne & _ & ->)]; [left; reflexivity|].
        right. exists m. split; [exact Hne | reflexivity]. }
      split; [reflexivity|].
      rewrite <- settle_pending_iff with (stdout := EmptyString) (stderr := EmptyString).
      rewrite <- Ho.
      destruct o; cbn; (split; [exact Hs|]); split; congruence.
  - left. unfold handleRequest. run.
    destruct (ToString_cases method) as [[mt Hm]|Hm]; rewrite Hm; cbn;
      [|split; [reflexivity|discriminate]].
    rewrite Hcall.
    repeat match goal with
           | |- context [if ?b then _ else _] => destruct b
           end; unfold draw_uuid; run; split; (reflexivity || discriminate).
Qed.

(** The route inherits it. *)
Lemma post_mcp_run (req : Request) (w : World) :
  let out := post_mcp config host req w in
  (spawned (snd out) = spawned w /\ fst out <> Pending)
  \/ (exists argv,
         (argv = LIST_ARGV
          \/ exists m, m <> EmptyString
                       /\ argv = ["sessions"; "send"; "--label"; sessionLabel config;
                                  "--message"; escape_quotes m; "--timeout"; "120"])
         /\ prop (body req) "method" = VStr "tools/call"
         /\ spawned (snd out) = spawned w ++ [("openclaw", argv)]
         /\ (fst out = Pending
             <-> forallb is_data (child_process host "openclaw" argv) = true)).
Proof.
  cbv zeta. unfold post_mcp.
  destruct (authenticate_cases req (post_mcp_handler config host) w)
    as [(code & msg & ->) | ->].
  { left. split; [reflexivity|discriminate]. }
  destruct (valid_envelope_dec req) as [Hv|Hbad].
  2:{ destruct (post_mcp_handler_invalid_cases req w Hbad)
        as [(reason & ->)|(mt & it & ->)];
        left; (split; [reflexivity|discriminate]). }
  rewrite post_mcp_handler_valid by exact Hv. cbn zeta.
  destruct (ToString_cases (prop (body req) "method")) as [[mt Hm]|Hm]; rewrite Hm;
    [|left; split; [reflexivity|discriminate]].
  destruct (ToString_cases (prop (body req) "id")) as [[it Hi]|Hi]; rewrite Hi;
    [|left; split; [reflexivity|discriminate]].
  match goal with
  | |- context [handleRequest config host ?m ?p ?i ?w0] =>
      destruct (handleRequest_run m p i w0) as [[Hs Hp] | (argv & Hshape & Hc & Hs & Ho)];
      destruct (handleRequest config host m p i w0) as [o w']
  end; cbn in *.
  - left. destruct o as [r|e|]; [destruct r| |]; cbn;
      (split; [exact Hs | congruence]).
  - right. exists argv. split; [exact Hshape|]. split; [exact Hc|].
    destruct o as [r|e|]; [destruct r| |]; cbn; (split; [exact Hs|]);
      rewrite <- Ho; split; congruence.
Qed.

(** X8.  A [POST] spawns one process at most, and only [openclaw]: either
    [sessions list --limit 10], or [sessions send] under the configured
    label with the escaped text of a non-empty string as one argument and
    the timeout 120.  Nothing a client sends becomes a command or an
    argument of its own. *)
Theorem spawn_discipline (req : Request) (w : World) :
  let w' := snd (post_mcp config host req w) in
  spawned w' = spawned w
  \/ spawned w' = spawned w ++ [("openclaw", ["sessions"; "list"; "--limit"; "10"])]
  \/ exists m,
       m <> EmptyString
       /\ spawned w' = spawned w ++ [("openclaw",
                                      ["sessions"; "send"; "--label"; sessionLabel config;
                                       "--message"; escape_quotes m; "--timeout"; "120"])].
Proof.
  cbv zeta.
  destruct (post_mcp_run req w) as [[Hs _] | (argv & Hshape & _ & Hs & _)].
  - left. exact Hs.
  - right. destruct Hshape as [-> | (m & Hne & ->)].
    + left. exact Hs.
    + right. exists m. split; [exact Hne | exact Hs].
Qed.

(** X3.  The route sends no response of its own in two cases only.  It
    hangs when it called [spawn] for the agent and the agent's process
    neither closes nor fails, however much it writes: the server sets no
    time limit of its own.  And its handler ends in an exception, before
    the version is looked at and outside its [try], when the request has
    the key and its body is not there, or its method or its identifier
    cannot be formatted for the console. *)
Theorem unanswered_iff_child_never_ends (req : Request) (w : World) :
  (fst (post_mcp config host req w) = Pending
   <-> exists argv,
         spawned (snd (post_mcp config host req w)) = spawned w ++ [("openclaw", argv)]
         /\ forallb is_data (child_process host "openclaw" argv) = true)
  /\ ((exists e, fst (post_mcp config host req w) = Throw e)
      <-> authorized config req
          /\ (body req = VUndefined \/ body req = VNull
              \/ ToString host (prop (body req) "method") = Throw CANNOT_CONVERT
              \/ ToString host (prop (body req) "id") = Throw CANNOT_CONVERT)).
Proof.
  split.
  - destruct (post_mcp_run req w) as [[Hs Hp] | (argv & _ & _ & Hs & Ho)];
      cbv zeta in *.
    + split; [contradiction|].
      intros (argv & Hs' & _). rewrite Hs in Hs'.
      apply (f_equal (@List.length _)) in Hs'. rewrite length_app in Hs'.
      cbn in Hs'. lia.
    + split.
      * intros Hpend. exists argv. split; [exact Hs | apply Ho, Hpend].
      * intros (argv' & Hs' & Hd). rewrite Hs in Hs'.
        apply app_inj_tail in Hs'. destruct Hs' as [_ [= ->]].
        apply Ho, Hd.
  - unfold post_mcp.
    destruct (authenticate_authorized req (post_mcp_handler config host) w)
      as [[Hauth ->] | (code & msg & _ & Hnot & ->)].
    2:{ split; [intros [e He]; discriminate | intros [Hauth _]; contradiction]. }
    split.
    + intros [e He]. split; [exact Hauth|].
      eapply post_mcp_handler_throws. exact He.
    + intros [_ Hwhy].
      destruct (post_mcp_handler_rejects req w Hwhy) as [reason ->].
      eexists. reflexivity.
Qed.

(** *** Who writes what *)

Lemma preserves_ret {A X} (f : World -> X) (a : A) : preserves f (ret a).
Proof. intros w. reflexivity. Qed.

Lemma preserves_throw {A X} (f : World -> X) (e : JsError) : preserves f (@throw A e).
Proof. intros w. reflexivity. Qed.

Lemma preserves_bind {A B X} (f : World -> X) (m : M A) (k : A -> M B) :
  preserves f m -> (forall a, preserves f (k a)) -> preserves f (bind m k).
Proof.
  intros Hm Hk w. unfold bind. specialize (Hm w).
  destruct (m w) as [[a|e|] w']; cbn in *; [|exact Hm|exact Hm].
  rewrite Hk. exact Hm.
Qed.

Lemma preserves_try_catch {A X} (f : World -> X) (m : M A) (h : JsError -> M A) :
  preserves f m -> (forall e, preserves f (h e)) -> preserves f (try_catch m h).
Proof.
  intros Hm Hh w. unfold try_catch. specialize (Hm w).
  destruct (m w) as [[a|e|] w']; cbn in *; [exact Hm| |exact Hm].
  rewrite Hh. exact Hm.
Qed.

Lemma preserves_if {A X} (f : World -> X) (b : bool) (m1 m2 : M A) :
  preserves f m1 -> preserves f m2 -> preserves f (if b then m1 else m2).
Proof. destruct b; auto. Qed.

(** The tool switch touches neither the session map nor the UUID count. *)
Lemma call_tool_keeps_sessions (toolName toolArgs : value) :
  preserves (fun w => (sessions w, uuidsDrawn w))
    (call_tool config host toolName toolArgs).
Proof.
  unfold call_tool, sendToOpenClaw, searchMemory, listSessions, spawn.
  cbv zeta.
  repeat lazymatch goal with
         | |- preserves _ (bind _ _) => apply preserves_bind; [|intros ?]
         | |- preserves _ (if _ then _ else _) => apply preserves_if
         | |- preserves _ (match ?v with VStr _ => _ | _ => _ end) => destruct v
         | |- preserves _ (match ?v with inl _ => _ | inr _ => _ end) => destruct v
         | |- preserves _ (ret _) => apply preserves_ret
         | |- preserves _ (throw _) => apply preserves_throw
         | |- preserves _ _ => intros w; reflexivity
         end.
Qed.

(** The session map after the dispatcher ran. *)
Lemma handleRequest_sessions (method params id : value) (w : World) :
  sessions (snd (handleRequest config host method params id w))
  = if is_string method "initialize"
    then <[randomUUID host (uuidsDrawn w) :=
             VObj [("initialized", VBool true);
                   ("protocolVersion", prop params "protocolVersion");
                   ("clientInfo", prop params "clientInfo")]]> (sessions w)
    else sessions w.
Proof.
  destruct (is_string method "tools/call") eqn:Hcall.
  - apply is_string_true in Hcall. subst method.
    rewrite handleRequest_tools_call. cbn zeta. cbn [is_string String.eqb Ascii.eqb Bool.eqb].
    destruct (ToString host (prop params "name")); try reflexivity.
    match goal with
    | |- context [call_tool config host ?n ?a ?w0] =>
        pose proof (call_tool_keeps_sessions n a w0) as Hk;
        destruct (call_tool config host n a w0) as [[r|e|] w']
    end; cbn in *; congruence.
  - unfold handleRequest. run.
    destruct (ToString_cases method) as [[mt Hm]|Hm]; rewrite Hm; cbn.
    2:{ destruct (is_string method "initialize") eqn:Hinit; [|reflexivity].
        apply is_string_true in Hinit. subst method. discriminate. }
    rewrite Hcall.
    destruct (is_string method "initialize"); [unfold draw_uuid; run; reflexivity|].
    repeat match goal with
           | |- context [if ?b then _ else _] => destruct b
           end; run; reflexivity.
Qed.

(** X11.  Only [initialize] writes the session map and draws a UUID, and
    only [tools/call] spawns: any other call of the dispatcher leaves
    the sessions, the UUID count and the processes as they were. *)
Theorem writers_of_the_state (method params id : value) (w : World) :
  let w' := snd (handleRequest config host method params id w) in
  (method <> VStr "initialize" ->
   sessions w' = sessions w /\ uuidsDrawn w' = uuidsDrawn w)
  /\ (method <> VStr "tools/call" -> spawned w' = spawned w).
Proof.
  cbv zeta. split.
  - intros Hne. apply is_string_false in Hne.
    split; [rewrite handleRequest_sessions, Hne; reflexivity|].
    destruct (is_string method "tools/call") eqn:Hcall.
    + apply is_string_true in Hcall. subst method.
      rewrite handleRequest_tools_call. cbn zeta.
      destruct (ToString host (prop params "name")); try reflexivity.
      match goal with
      | |- context [call_tool config host ?n ?a ?w0] =>
          pose proof (call_tool_keeps_sessions n a w0) as Hk;
          destruct (call_tool config host n a w0) as [[r|e|] w']
      end; cbn in *; congruence.
    + unfold handleRequest. run.
      destruct (ToString host method); cbn; try reflexivity.
      rewrite Hcall, Hne.
      repeat match goal with
             | |- context [if ?b then _ else _] => destruct b
             end; run; reflexivity.
  - intros Hne.
    destruct (handleRequest_run method params id w)
      as [[Hs _] | (argv & _ & Hm & _)]; [exact Hs | contradiction].
Qed.

(** X12.  No [POST] removes a session: a key of the session map stays a
    key, and its record stays the same unless the next UUID drawn is that
    very key. *)
Theorem sessions_never_evicted (req : Request) (w : World) (k : string) :
  let w' := snd (post_mcp config host req w) in
  (is_Some (sessions w !! k) -> is_Some (sessions w' !! k))
  /\ (k <> randomUUID host (uuidsDrawn w) -> sessions w' !! k = sessions w !! k).
Proof.
  cbv zeta.
  assert (Hcases :
            sessions (snd (post_mcp config host req w)) = sessions w
            \/ exists record,
                 sessions (snd (post_mcp config host req w))
                 = <[randomUUID host (uuidsDrawn w) := record]> (sessions w)).
  { unfold post_mcp.
    destruct (authenticate_cases req (post_mcp_handler config host) w)
      as [(code & msg & ->) | ->]; [left; reflexivity|].
    destruct (valid_envelope_dec req) as [Hv|Hbad].
    2:{ destruct (post_mcp_handler_invalid_cases req w Hbad)
          as [(reason & ->)|(mt & it & ->)]; left; reflexivity. }
    rewrite post_mcp_handler_valid by exact Hv. cbn zeta.
    destruct (ToString host (prop (body req) "method")); try (left; reflexivity).
    destruct (ToString host (prop (body req) "id")); try (left; reflexivity).
    match goal with
    | |- context [handleRequest config host ?m ?p ?i ?w0] =>
        pose proof (handleRequest_sessions m p i w0) as Hs;
        destruct (handleRequest config host m p i w0) as [[r|e|] w']
    end; cbn in Hs;
      (destruct (is_string (prop (body req) "method") "initialize");
       [right; eexists|left]);
      try destruct r; cbn; exact Hs. }
  destruct Hcases as [-> | (record & ->)]; [tauto|].
  split.
  - intros Hk. destruct (decide (randomUUID host (uuidsDrawn w) = k)) as [<-|Hne].
    + rewrite lookup_insert_eq. eauto.
    + rewrite lookup_insert_ne by exact Hne. exact Hk.
  - intros Hne. apply lookup_insert_ne. congruence.
Qed.

(** X19.  Two [initialize] in a row: each answer names a session
    identifier under which the record of its own request is then found,
    provided the two UUIDs drawn differ; if they were the same, the second
    record would silently replace the first. *)
Theorem two_initializations (p1 p2 i1 i2 : value) (w : World) :
  let record (p : value) :=
    VObj [("initialized", VBool true);
          ("protocolVersion", prop p "protocolVersion");
          ("clientInfo", prop p "clientInfo")] in
  let out1 := handleRequest config host (VStr "initialize") p1 i1 w in
  let out2 := handleRequest config host (VStr "initialize") p2 i2 (snd out1) in
  exists r1 r2 s1 s2,
    fst out1 = Return r1 /\ fst out2 = Return r2
    /\ prop (prop r1 "result") "sessionId" = VStr s1
    /\ prop (prop r2 "result") "sessionId" = VStr s2
    /\ sessions (snd out2) !! s2 = Some (record p2)
    /\ (s1 <> s2 -> sessions (snd out2) !! s1 = Some (record p1))
    /\ (s1 = s2 -> sessions (snd out2) !! s1 = Some (record p2))
    /\ (s1 = randomUUID host (uuidsDrawn w)
        /\ s2 = randomUUID host (S (uuidsDrawn w))).
Proof.
  cbv zeta. unfold handleRequest, draw_uuid. run.
  do 4 eexists. repeat split.
  - apply lookup_insert_eq.
  - intros Hne. rewrite lookup_insert_ne by congruence. apply lookup_insert_eq.
  - intros ->. apply lookup_insert_eq.
Qed.


(** *** The escaping, the search and the registry *)

Lemma escape_quotes_cons (c : ascii) (m : string) :
  escape_quotes (String c m)
  = if Ascii.eqb c DQUOTE
    then String BACKSLASH (String DQUOTE (escape_quotes m))
    else String c (escape_quotes m).
Proof.
  unfold escape_quotes. cbn [replace_all].
  destruct (Ascii.eqb c DQUOTE); unfold str;
    rewrite ?string_app_cons, string_app_nil_l; reflexivity.
Qed.

Lemma includes_quote_cons (c : ascii) (a : string) :
  includes (String c a) (str DQUOTE)
  = Ascii.eqb c DQUOTE || includes a (str DQUOTE).
Proof.
  cbn [includes]. f_equal. unfold str. cbn [String.prefix].
  destruct (ascii_dec DQUOTE c) as [<-|Hne].
  - rewrite Ascii.eqb_refl. destruct a; reflexivity.
  - symmetry. apply Ascii.eqb_neq. congruence.
Qed.

(** X9.  The escaping of [sendToOpenClaw] loses nothing: two messages
    with the same escaped text are the same message, although a backslash
    of the message is itself left as it is; and a message without a double
    quote is passed unchanged. *)
Theorem escape_quotes_injective (a b : string) :
  (escape_quotes a = escape_quotes b -> a = b)
  /\ (includes a (str DQUOTE) = false -> escape_quotes a = a).
Proof.
  split.
  - revert b. induction a as [|c a IH]; intros b Heq.
    + destruct b as [|d b]; [reflexivity|].
      rewrite escape_quotes_cons in Heq. cbn in Heq.
      destruct (Ascii.eqb d DQUOTE); discriminate.
    + destruct b as [|d b].
      { rewrite escape_quotes_cons in Heq. cbn in Heq.
        destruct (Ascii.eqb c DQUOTE); discriminate. }
      rewrite !escape_quotes_cons in Heq.
      destruct (Ascii.eqb c DQUOTE) eqn:Ec, (Ascii.eqb d DQUOTE) eqn:Ed.
      * apply Ascii.eqb_eq in Ec, Ed. subst. injection Heq as Heq.
        f_equal. apply IH, Heq.
      * exfalso. injection Heq as Hd Heq. subst d.
        destruct b as [|x b]; [discriminate|].
        rewrite escape_quotes_cons in Heq.
        destruct (Ascii.eqb x DQUOTE) eqn:Ex.
        -- discriminate.
        -- injection Heq as Hx _. subst x. discriminate.
      * exfalso. injection Heq as Hc Heq. subst c.
        destruct a as [|x a]; [discriminate|].
        rewrite escape_quotes_cons in Heq.
        destruct (Ascii.eqb x DQUOTE) eqn:Ex.
        -- discriminate.
        -- injection Heq as Hx _. subst x. discriminate.
      * injection Heq as -> Heq. f_equal. apply IH, Heq.
  - induction a as [|c a IH]; intros Hno; [reflexivity|].
    rewrite escape_quotes_cons.
    rewrite includes_quote_cons in Hno. apply orb_false_iff in Hno.
    destruct Hno as [Hc Ha]. rewrite Hc. f_equal. apply IH, Ha.
Qed.

(** X10.  The search does not see the case of the query: two queries with
    the same lower-case form get the same answer, but for the no-result
    message, which quotes each query as it was typed. *)
Theorem search_ignores_query_case (q1 q2 : string) (w : World) :
  toLowerCase host q1 = toLowerCase host q2 ->
  fst (searchMemory config host (VStr q1) w) = fst (searchMemory config host (VStr q2) w)
  \/ (fst (searchMemory config host (VStr q1) w) = Return (no_result_text q1)
      /\ fst (searchMemory config host (VStr q2) w) = Return (no_result_text q2)).
Proof.
  intros Hlow. rewrite !searchMemory_string. cbv zeta.
  destruct (existsSync _ _); [|left; reflexivity].
  destruct (readFileSync _ _) as [content|e]; [|left; reflexivity].
  assert (Hsame : List.filter (line_matches host q1) (split LF content)
                  = List.filter (line_matches host q2) (split LF content)).
  { apply List.filter_ext. intros line. unfold line_matches. rewrite Hlow. reflexivity. }
  rewrite Hsame. clear Hsame.
  destruct (List.filter (line_matches host q2) (split LF content));
    [right; split; reflexivity | left; reflexivity].
Qed.

(** X16.  Both servers advertise the same tools: the [/] route of each
    sends the same body, whose [tools] are the names of the descriptors in
    the order of the table, and the SDK's [tools/list] handler returns the
    descriptors of the hand-written server, whatever the bot's name. *)
Theorem advertised_tools_agree :
  info_endpoint config = sdk_info_endpoint config
  /\ (exists info,
         payload (info_endpoint config) = Some info
         /\ prop info "tools" = VArr (List.map VStr KNOWN_TOOLS)
         /\ prop info "tools" = tool_names (TOOLS config))
  /\ sdk_ListTools_handler config = VObj [("tools", TOOLS config)].
Proof.
  split; [reflexivity|]. split; [|reflexivity].
  eexists. split; [reflexivity|]. split; reflexivity.
Qed.

(** An exception out of the listeners is about the exit, the spawn or
    the arguments. *)
Lemma settle_throws (events : list ProcEvent) (stdout stderr : string) (e : JsError) :
  settle events stdout stderr = Throw e ->
  exists rest, error_message e = String "O" rest \/ error_message e = String "F" rest
               \/ error_message e = String "T" rest.
Proof.
  revert stdout stderr.
  induction events as [|ev events IH]; intros stdout stderr Hs; [discriminate|].
  destruct ev as [d|d|code|msg|detail]; cbn in Hs.
  - eapply IH, Hs.
  - eapply IH, Hs.
  - destruct code as [[|p|p]|]; inversion Hs; subst; cbn; eexists; left; reflexivity.
  - inversion Hs; subst. cbn. eexists. right. left. reflexivity.
  - inversion Hs; subst. cbn. eexists. right. right. reflexivity.
Qed.

(** X18.  The advertised names are the names the dispatcher serves: a
    [tools/call] with a name and no arguments is answered ["Error: Unknown
    tool: <name>"] exactly when the name is not among those the [/] route
    lists. *)
Theorem advertised_iff_served (t : string) (id : value) (w : World) :
  fst (handleRequest config host (VStr "tools/call") (VObj [("name", VStr t)]) id w)
  = Return (tool_error id ("Error: Unknown tool: " +:+ t))
  <-> ~ In (VStr t)
        (match tool_names (TOOLS config) with VArr names => names | _ => [] end).
Proof.
  rewrite handleRequest_tools_call. cbn zeta.
  change (match tool_names (TOOLS config) with VArr names => names | _ => [] end)
    with [VStr "ask"; VStr "memory_search"; VStr "sessions_status"].
  cbn [prop lookup_field String.eqb Ascii.eqb Bool.eqb or_else truthy].
  unfold call_tool.
  destruct (is_string (VStr t) "ask") eqn:Hask.
  { apply is_string_true in Hask. injection Hask as ->.
    cbn. split; [discriminate|]. intros Hn. exfalso. apply Hn. left. reflexivity. }
  destruct (is_string (VStr t) "memory_search") eqn:Hmem.
  { apply is_string_true in Hmem. injection Hmem as ->.
    cbn. split; [discriminate|]. intros Hn. exfalso. apply Hn. right. left. reflexivity. }
  destruct (is_string (VStr t) "sessions_status") eqn:Hses.
  { apply is_string_true in Hses. injection Hses as ->.
    split; [|intros Hn; exfalso; apply Hn; right; right; left; reflexivity].
    unfold listSessions, spawn. run.
    destruct (settle _ _ _) as [r|e|] eqn:Es; cbn; try discriminate.
    apply settle_throws in Es. destruct Es as (rest & [Hm | [Hm | Hm]]);
      rewrite Hm; discriminate. }
  run. split; [|reflexivity].
  intros _ [H|[H|[H|[]]]]; injection H as <-; discriminate.
Qed.

(** *** The event stream *)

Lemma sse_run_cons (e : SseEvent) (events : list SseEvent) (res : SseStream) :
  sse_run (e :: events) res = sse_run events (sse_step res e).
Proof. reflexivity. Qed.

(** Once the timer is cleared nothing is written any more, and it is not
    armed again. *)
Lemma sse_run_cleared (events : list SseEvent) (res : SseStream) :
  sse_keepAlive res = None ->
  sse_written (sse_run events res) = sse_written res
  /\ sse_keepAlive (sse_run events res) = None
  /\ sse_headers (sse_run events res) = sse_headers res
  /\ sse_flushed (sse_run events res) = sse_flushed res.
Proof.
  revert res. induction events as [|e events IH]; intros res Hk; [tauto|].
  rewrite sse_run_cons. destruct e; cbn [sse_step].
  - rewrite Hk. apply IH, Hk.
  - destruct (IH (close_listener res) eq_refl) as (H1 & H2 & H3 & H4).
    rewrite H1, H2, H3, H4. cbn. tauto.
Qed.

Lemma sse_run_armed (events : list SseEvent) (res : SseStream) (period : Z) :
  sse_keepAlive res = Some period ->
  sse_written (sse_run events res)
  = sse_written res ++ repeat KEEPALIVE (ticks_before_close events)
  /\ sse_keepAlive (sse_run events res)
     = (if existsb (fun e => match e with RequestClosed => true | _ => false end) events
        then None else Some period)
  /\ sse_headers (sse_run events res) = sse_headers res
  /\ sse_flushed (sse_run events res) = sse_flushed res.
Proof.
  revert res. induction events as [|e events IH]; intros res Hk.
  { cbn. rewrite app_nil_r. tauto. }
  rewrite sse_run_cons. destruct e; cbn [sse_step].
  - rewrite Hk.
    destruct (IH (keepAlive_callback res) Hk) as (H1 & H2 & H3 & H4).
    rewrite H1, H2, H3, H4. cbn. rewrite <- app_assoc. tauto.
  - destruct (sse_run_cleared events (close_listener res) eq_refl) as (H1 & H2 & H3 & H4).
    rewrite H1, H2, H3, H4. cbn. rewrite app_nil_r. tauto.
Qed.

(** X17.  The event stream of [GET /mcp] carries heartbeats and nothing
    else: whatever the order of events, what was written is one
    [: keepalive] comment for each period that passed before the client
    first went away; from then on the timer is cleared for good, and until
    then it stays armed. *)
Theorem sse_heartbeat (events : list SseEvent) :
  let res := sse_run events (get_mcp_handler fresh_stream) in
  sse_written res = repeat KEEPALIVE (ticks_before_close events)
  /\ (In RequestClosed events -> sse_keepAlive res = None)
  /\ (~ In RequestClosed events -> sse_keepAlive res = Some 30000%Z)
  /\ sse_headers res = [("Content-Type", "text/event-stream");
                        ("Cache-Control", "no-cache");
                        ("Connection", "keep-alive")]
  /\ sse_flushed res = true.
Proof.
  cbv zeta.
  destruct (sse_run_armed events (get_mcp_handler fresh_stream) 30000%Z eq_refl)
    as (H1 & H2 & H3 & H4).
  rewrite H1, H2, H3, H4. cbn [get_mcp_handler fresh_stream sse_written sse_headers
                                 sse_flushed app].
  split; [reflexivity|].
  destruct (existsb _ events) eqn:Ex.
  - split; [reflexivity|]. split; [|split; reflexivity].
    intros Hn. exfalso. apply Hn.
    apply existsb_exists in Ex. destruct Ex as (e & Hin & He).
    destruct e; [discriminate | exact Hin].
  - split; [|split; [reflexivity | split; reflexivity]].
    intros Hin. exfalso.
    assert (Ht : existsb (fun e => match e with RequestClosed => true | _ => false end)
                   events = true).
    { apply existsb_exists. exists RequestClosed. split; [exact Hin | reflexivity]. }
    congruence.
Qed.


End Properties.


(* ===================================================================== *)
(** ** The properties on examples *)
(* ===================================================================== *)

(** No header and a [Basic] header are answered 401, a wrong key 403, and
    the right key reaches the route. *)
Lemma authenticate_gate_witness :
  (exists r1 r2,
      authenticate demo_config no_header_request demo_route initial_world
      = (Return r1, initial_world) /\ status r1 = 401%Z
      /\ sdk_authenticate demo_config no_header_request demo_route initial_world
         = (Return r2, initial_world) /\ status r2 = 401%Z)
  /\ (exists r1 r2,
        authenticate demo_config basic_header_request demo_route initial_world
        = (Return r1, initial_world) /\ status r1 = 401%Z
        /\ sdk_authenticate demo_config basic_header_request demo_route initial_world
           = (Return r2, initial_world) /\ status r2 = 401%Z)
  /\ (exists r1 r2,
        authenticate demo_config (demo_request "guess" []) demo_route initial_world
        = (Return r1, initial_world) /\ status r1 = 403%Z
        /\ sdk_authenticate demo_config (demo_request "guess" []) demo_route initial_world
           = (Return r2, initial_world) /\ status r2 = 403%Z)
  /\ authenticate demo_config (demo_request "s3cret" []) demo_route initial_world
     = demo_route (demo_request "s3cret" []) initial_world.
Proof.
  split; [|split; [|split]].
  - apply (proj1 (authenticate_gate demo_config no_header_request demo_route initial_world)).
    left. reflexivity.
  - apply (proj1 (authenticate_gate demo_config basic_header_request demo_route initial_world)).
    right. exists "Basic czNjcmV0". split; reflexivity.
  - apply (proj1 (proj2 (authenticate_gate demo_config (demo_request "guess" [])
                           demo_route initial_world)) "guess").
    + reflexivity.
    + discriminate.
  - apply (proj2 (proj2 (authenticate_gate demo_config (demo_request "s3cret" [])
                           demo_route initial_world))).
    reflexivity.
Defined.



(** An [initialized] is answered 202 without a body, with an identifier
    as without one, and [ping] is answered under its identifier. *)
Lemma response_carries_id_witness :
  fst (post_mcp demo_config (demo_host None [])
         (demo_request "s3cret"
            [("jsonrpc", VStr "2.0"); ("id", VNum 3); ("method", VStr "initialized")])
         initial_world)
  = Return {| status := 202; payload := None |}
  /\ fst (post_mcp demo_config (demo_host None [])
            (demo_request "s3cret"
               [("jsonrpc", VStr "2.0"); ("method", VStr "initialized")])
            initial_world)
     = Return {| status := 202; payload := None |}
  /\ (forall response,
        fst (handleRequest demo_config (demo_host None []) (VStr "ping")
               (VObj []) (VStr "abc") initial_world) = Return response ->
        response <> VNull /\ prop response "id" = VStr "abc")
  /\ exists response,
       fst (handleRequest demo_config (demo_host None []) (VStr "ping")
              (VObj []) (VStr "abc") initial_world) = Return response.
Proof.
  split; [|split; [|split]].
  - apply (proj1 (proj2 (proj2 (proj2
             (response_carries_id demo_config (demo_host None [])
                (VStr "initialized") (VObj []) (VNum 3) initial_world))))
           (demo_request "s3cret"
              [("jsonrpc", VStr "2.0"); ("id", VNum 3); ("method", VStr "initialized")])
           "3");
      reflexivity.
  - apply (proj1 (proj2 (proj2 (proj2
             (response_carries_id demo_config (demo_host None [])
                (VStr "initialized") (VObj []) VUndefined initial_world))))
           (demo_request "s3cret"
              [("jsonrpc", VStr "2.0"); ("method", VStr "initialized")])
           "undefined");
      reflexivity.
  - intros response Hret.
    apply (proj1 (response_carries_id demo_config (demo_host None [])
                    (VStr "ping") (VObj []) (VStr "abc") initial_world) response Hret).
    discriminate.
  - apply (proj1 (proj2 (response_carries_id demo_config (demo_host None [])
                           (VStr "ping") (VObj []) (VStr "abc") initial_world)) "ping");
      [reflexivity | discriminate].
Defined.




(** An agent that exits 0 with a line break as its whole output. *)
Lemma empty_output_reads_Success_witness :
  fst (handleRequest demo_config (demo_host None [StdoutData (str LF); Close (Some 0%Z)])
         (VStr "tools/call")
         (VObj [("name", VStr "ask"); ("arguments", VObj [("message", VStr "hello")])])
         (VNum 2) initial_world)
  = Return (VObj [("jsonrpc", VStr "2.0");
                  ("id", VNum 2);
                  ("result", VObj [("content", VArr [text_block "Success"])])])
  /\ fst (sdk_CallToolRequest_handler demo_config
            (demo_host None [StdoutData (str LF); Close (Some 0%Z)])
            (VObj [("name", VStr "sessions_status")]) initial_world)
     = Return (VObj [("content", VArr [text_block "Success"])]).
Proof.
  split.
  - apply (proj1 (empty_output_reads_Success demo_config
                    (demo_host None [StdoutData (str LF); Close (Some 0%Z)])
                    (VObj [("name", VStr "ask");
                           ("arguments", VObj [("message", VStr "hello")])])
                    (VNum 2) initial_world)).
    vm_compute. reflexivity.
  - apply (proj1 (proj2 (empty_output_reads_Success demo_config
                    (demo_host None [StdoutData (str LF); Close (Some 0%Z)])
                    (VObj [("name", VStr "sessions_status")])
                    VUndefined initial_world))).
    vm_compute. reflexivity.
Defined.

(** Without the file, with no matching line, and with twelve matching
    lines of which ten are shown. *)
Lemma memory_search_contract_witness :
  fst (handleRequest demo_config (demo_host None []) (VStr "tools/call")
         (VObj [("name", VStr "memory_search"); ("arguments", VObj [("query", VStr "Alpha")])])
         (VNum 1) initial_world)
  = Return (tool_result (VNum 1) "MEMORY.md não encontrado no workspace")
  /\ fst (handleRequest demo_config (demo_host (Some demo_memory) []) (VStr "tools/call")
            (VObj [("name", VStr "memory_search"); ("arguments", VObj [("query", VStr "gamma")])])
            (VNum 1) initial_world)
     = Return (tool_result (VNum 1)
                 ("Nenhum resultado encontrado para " +:+ str DQUOTE +:+ "gamma"
                  +:+ str DQUOTE +:+ " na memória."))
  /\ fst (handleRequest demo_config (demo_host (Some demo_memory_long) []) (VStr "tools/call")
            (VObj [("name", VStr "memory_search"); ("arguments", VObj [("query", VStr "Note")])])
            (VNum 1) initial_world)
     = Return (tool_result (VNum 1)
                 ("Encontrados 12 resultados:" +:+ str LF +:+ str LF
                  +:+ lines_text ["note 1"; "note 2"; "note 3"; "note 4"; "note 5";
                                  "Note 6"; "note 7"; "NOTE 8"; "note 9"; "note 10"])).
Proof.
  split; [|split].
  - refine (proj1 (proj1 (memory_search_contract demo_config (demo_host None [])
                            (VObj [("name", VStr "memory_search");
                                   ("arguments", VObj [("query", VStr "Alpha")])])
                            (VNum 1) "Alpha" initial_world eq_refl eq_refl _) eq_refl)).
    discriminate.
  - refine (proj1 (proj1 (proj2 (memory_search_contract demo_config
                                   (demo_host (Some demo_memory) [])
                                   (VObj [("name", VStr "memory_search");
                                          ("arguments", VObj [("query", VStr "gamma")])])
                                   (VNum 1) "gamma" initial_world eq_refl eq_refl _)
                            demo_memory eq_refl eq_refl) _)).
    + discriminate.
    + intros line Hin. vm_compute in Hin.
      repeat (destruct Hin as [<- | Hin]; [reflexivity|]). destruct Hin.
  - refine (proj1 (proj1 (proj2 (proj2 (memory_search_contract demo_config
                                   (demo_host (Some demo_memory_long) [])
                                   (VObj [("name", VStr "memory_search");
                                          ("arguments", VObj [("query", VStr "Note")])])
                                   (VNum 1) "Note" initial_world eq_refl eq_refl _)
                            demo_memory_long eq_refl eq_refl) _))).
    + discriminate.
    + exists "note 1". split; [left|]; reflexivity.
Defined.

(** A message with two double quotes, to an agent that fails with code 3,
    to one that cannot be started and to a [spawn] that refuses its
    arguments; and an empty message. *)
Lemma ask_contract_witness :
  escaped quoted_message escaped_message
  /\ handleRequest demo_config (demo_host None [StderrData "no such "; StderrData "session";
                                                Close (Some 3%Z)])
       (VStr "tools/call")
       (VObj [("name", VStr "ask"); ("arguments", VObj [("message", VStr quoted_message)])])
       (VNum 9) initial_world
     = (Return (tool_error (VNum 9) "Error: OpenClaw exited with code 3: no such session"),
        logged [LogHandling "tools/call";
                LogCallingTool "ask" (VObj [("message", VStr quoted_message)]);
                LogSending quoted_message;
                LogToolError (Error "OpenClaw exited with code 3: no such session")]
          (with_spawn "openclaw" (send_argv "main" escaped_message) initial_world))
  /\ fst (handleRequest demo_config (demo_host None [ErrorEvent "spawn openclaw ENOENT";
                                                     Close (Some (-2)%Z)])
            (VStr "tools/call")
            (VObj [("name", VStr "ask"); ("arguments", VObj [("message", VStr quoted_message)])])
            (VNum 9) initial_world)
     = Return (tool_error (VNum 9) "Error: Failed to spawn openclaw: spawn openclaw ENOENT")
  /\ fst (handleRequest demo_config (demo_host None [InvalidArg nul_detail])
            (VStr "tools/call")
            (VObj [("name", VStr "ask"); ("arguments", VObj [("message", VStr nul_message)])])
            (VNum 9) initial_world)
     = Return (tool_error (VNum 9) ("Error: The argument " +:+ nul_detail))
  /\ handleRequest demo_config (demo_host None [Close (Some 0%Z)])
       (VStr "tools/call")
       (VObj [("name", VStr "ask"); ("arguments", VObj [("message", VStr EmptyString)])])
       (VNum 9) initial_world
     = (Return (tool_error (VNum 9) "Error: Missing 'message' argument"),
        logged [LogHandling "tools/call";
                LogCallingTool "ask" (VObj [("message", VStr EmptyString)]);
                LogToolError (Error "Missing 'message' argument")]
          initial_world).
Proof.
  assert (Hesc : escaped quoted_message escaped_message).
  { repeat first [ apply escaped_nil
                 | apply escaped_quote
                 | apply escaped_other; [discriminate|] ]. }
  split; [exact Hesc|]. split; [|split; [|split]].
  - destruct (proj1 (proj2 (ask_contract demo_config
                       (demo_host None [StderrData "no such "; StderrData "session";
                                        Close (Some 3%Z)])
                       (VObj [("name", VStr "ask");
                              ("arguments", VObj [("message", VStr quoted_message)])])
                       (VNum 9) initial_world eq_refl))
                quoted_message escaped_message eq_refl ltac:(discriminate) Hesc)
      as (Hspawn & Hexit & _).
    specialize (Hexit [StderrData "no such "; StderrData "session"] 3%Z []
                  eq_refl eq_refl ltac:(discriminate)).
    apply injective_projections; [exact Hexit | reflexivity].
  - destruct (proj1 (proj2 (ask_contract demo_config
                       (demo_host None [ErrorEvent "spawn openclaw ENOENT";
                                        Close (Some (-2)%Z)])
                       (VObj [("name", VStr "ask");
                              ("arguments", VObj [("message", VStr quoted_message)])])
                       (VNum 9) initial_world eq_refl))
                quoted_message escaped_message eq_refl ltac:(discriminate) Hesc)
      as (Hspawn & _ & Hfail & _).
    exact (Hfail [] "spawn openclaw ENOENT" [Close (Some (-2)%Z)] eq_refl eq_refl).
  - assert (Hnul : escaped nul_message nul_message).
    { repeat first [ apply escaped_nil | apply escaped_other; [discriminate|] ]. }
    destruct (proj1 (proj2 (ask_contract demo_config
                       (demo_host None [InvalidArg nul_detail])
                       (VObj [("name", VStr "ask");
                              ("arguments", VObj [("message", VStr nul_message)])])
                       (VNum 9) initial_world eq_refl))
                nul_message nul_message eq_refl ltac:(discriminate) Hnul)
      as (Hspawn & _ & _ & Hrefused).
    exact (Hrefused nul_detail [] eq_refl).
  - destruct (proj1 (ask_contract demo_config (demo_host None [Close (Some 0%Z)])
                       (VObj [("name", VStr "ask");
                              ("arguments", VObj [("message", VStr EmptyString)])])
                       (VNum 9) initial_world eq_refl)
                eq_refl) as [Hanswer Hspawned].
    apply injective_projections; [exact Hanswer | reflexivity].
Defined.

(** The message 123 is neither missing nor the empty string, and yet
    [spawn] is not called: the answer is the error-flagged block of the
    failed [message.replace]. *)
Lemma ask_number_counterexample :
  prop (or_else (prop ask_number "arguments") (VObj [])) "message" <> VUndefined
  /\ prop (or_else (prop ask_number "arguments") (VObj [])) "message" <> VStr EmptyString
  /\ handleRequest demo_config (demo_host None [Close (Some 0%Z)]) (VStr "tools/call")
       ask_number (VNum 9) initial_world
     = (Return (tool_error (VNum 9) "Error: message.replace is not a function"),
        logged [LogHandling "tools/call";
                LogCallingTool "ask" (VObj [("message", VNum 123)]);
                LogSending "123";
                LogToolError (TypeError "message.replace is not a function")]
          initial_world)
  /\ spawned (snd (handleRequest demo_config (demo_host None [Close (Some 0%Z)])
                     (VStr "tools/call") ask_number (VNum 9) initial_world)) = [].
Proof.
  split; [discriminate|]. split; [discriminate|]. split; reflexivity.
Qed.

(** The tool table of the example configuration, listed after an
    [initialize] as before it. *)
Lemma tools_list_static_witness :
  fst (handleRequest demo_config (demo_host None []) (VStr "tools/list")
         (VObj [("cursor", VStr "x")]) (VNum 1) initial_world)
  = fst (handleRequest demo_config (demo_host None []) (VStr "tools/list")
           VUndefined (VNum 1)
           (snd (handleRequest demo_config (demo_host None []) (VStr "initialize")
                   (VObj []) (VNum 0) initial_world))).
Proof.
  rewrite (proj1 (tools_list_static demo_config (demo_host None [])
                    (VObj [("cursor", VStr "x")]) (VNum 1) initial_world)).
  rewrite (proj1 (tools_list_static demo_config (demo_host None [])
                    VUndefined (VNum 1)
                    (snd (handleRequest demo_config (demo_host None []) (VStr "initialize")
                            (VObj []) (VNum 0) initial_world)))).
  reflexivity.
Defined.

(** A client that announces ["2025-06-18"] is answered ["2024-11-05"], and
    its version is in the stored record. *)
Lemma initialize_fixed_version_witness :
  (exists response,
      fst (handleRequest demo_config (demo_host None []) (VStr "initialize")
             (VObj [("protocolVersion", VStr "2025-06-18")]) (VNum 0) initial_world)
      = Return response
      /\ prop (prop response "result") "protocolVersion" = VStr "2024-11-05")
  /\ sessions (snd (handleRequest demo_config (demo_host None []) (VStr "initialize")
                      (VObj [("protocolVersion", VStr "2025-06-18")]) (VNum 0)
                      initial_world)) !! "uuid-0"
     = Some (VObj [("initialized", VBool true);
                   ("protocolVersion", VStr "2025-06-18");
                   ("clientInfo", VUndefined)]).
Proof.
  destruct (initialize_fixed_version demo_config (demo_host None [])
              (VObj [("protocolVersion", VStr "2025-06-18")]) (VNum 0) initial_world)
    as (Hanswer & Hstored & _).
  split; [exact Hanswer | exact Hstored].
Defined.

(** A lower-case scheme is answered 401 and a key with a trailing space
    403, the route untouched. *)
Lemma authenticate_exact_witness :
  authenticate demo_config lowercase_scheme_request demo_route initial_world
  = (Return (send_json 401 (rpc_error (-32600) "Missing or invalid authorization header"
                              VNull)), initial_world)
  /\ authenticate demo_config trailing_space_request demo_route initial_world
     = (Return (send_json 403 (rpc_error (-32600) "Invalid API key" VNull)), initial_world)
  /\ sdk_authenticate demo_config trailing_space_request demo_route initial_world
     = (Return (send_json 403 (VObj [("error", VStr "Invalid API key")])), initial_world).
Proof.
  split; [|split].
  - exact (proj1 (authenticate_exact demo_config lowercase_scheme_request demo_route
                    initial_world ltac:(discriminate))).
  - exact (proj1 (authenticate_exact demo_config trailing_space_request demo_route
                    initial_world ltac:(discriminate))).
  - exact (proj2 (authenticate_exact demo_config trailing_space_request demo_route
                    initial_world ltac:(discriminate))).
Defined.


(** A [ping] without an identifier is answered with a body all the same. *)
Lemma notification_by_method_witness :
  authorized demo_config ping_without_id
  /\ valid_envelope ping_without_id
  /\ fst (post_mcp demo_config (demo_host None []) ping_without_id initial_world)
     = Return (send_json 200 (VObj [("jsonrpc", VStr "2.0"); ("id", VUndefined);
                                    ("result", VObj [])]))
  /\ exists envelope,
       payload (send_json 200 (VObj [("jsonrpc", VStr "2.0"); ("id", VUndefined);
                                     ("result", VObj [])])) = Some envelope
       /\ prop envelope "id" = prop (body ping_without_id) "id".
Proof.
  split; [reflexivity|]. split; [reflexivity|]. split; [reflexivity|].
  refine (proj2 (proj2 (proj2 (notification_by_method demo_config (demo_host None [])
                                 ping_without_id initial_world _ eq_refl eq_refl eq_refl))
                   _)).
  discriminate.
Defined.



(** Two chunks of output around one of diagnostics, then exit 0. *)
Lemma ask_success_witness :
  fst (handleRequest demo_config (demo_host None answering_agent) (VStr "tools/call")
         ask_hello (VNum 1) initial_world)
  = Return (tool_result (VNum 1) "The answer is 42")
  /\ fst (sdk_CallToolRequest_handler demo_config (demo_host None answering_agent)
            ask_hello initial_world)
     = Return (VObj [("content", VArr [text_block "The answer is 42"])]).
Proof.
  exact (ask_success demo_config (demo_host None answering_agent) ask_hello (VNum 1)
           initial_world "hello"
           [StdoutData "  The answer"; StderrData "thinking";
            StdoutData (" is 42" +:+ str LF)]
           [StdoutData "late"]
           eq_refl eq_refl ltac:(discriminate) eq_refl eq_refl).
Defined.

(** An agent ended by a signal, asked for the sessions with arguments it
    has no use for. *)
Lemma sessions_status_contract_witness :
  fst (handleRequest demo_config (demo_host None [StderrData "killed"; Close None])
         (VStr "tools/call")
         (VObj [("name", VStr "sessions_status"); ("arguments", VObj [("limit", VNum 99)])])
         (VNum 1) initial_world)
  = Return (tool_error (VNum 1) "Error: OpenClaw exited with code null: killed").
Proof.
  exact (proj1 (proj2 (proj2
           (proj2 (sessions_status_contract demo_config
                     (demo_host None [StderrData "killed"; Close None])
                     (VObj [("name", VStr "sessions_status");
                            ("arguments", VObj [("limit", VNum 99)])])
                     (VNum 1) initial_world eq_refl)
              [StderrData "killed"] [] eq_refl))) eq_refl).
Defined.

(** ['error'] then ['close'], as Node emits them for a missing program. *)
Lemma first_settlement_wins_witness :
  settle [StderrData "x"; ErrorEvent "spawn openclaw ENOENT"; Close (Some (-2)%Z)]
    EmptyString EmptyString
  = Throw (Error "Failed to spawn openclaw: spawn openclaw ENOENT").
Proof.
  exact (proj2 (proj2 (first_settlement_wins [StderrData "x"] [Close (Some (-2)%Z)] []
                         (ErrorEvent "spawn openclaw ENOENT") EmptyString EmptyString
                         eq_refl eq_refl))
           "spawn openclaw ENOENT" eq_refl).
Defined.

(** An empty query, with a memory file in place. *)
Lemma memory_search_missing_query_witness :
  fst (handleRequest demo_config (demo_host (Some demo_memory) []) (VStr "tools/call")
         (VObj [("name", VStr "memory_search"); ("arguments", VObj [("query", VStr "")])])
         (VNum 1) initial_world)
  = Return (tool_error (VNum 1) "Error: Missing 'query' argument").
Proof.
  exact (proj1 (memory_search_missing_query demo_config (demo_host (Some demo_memory) [])
                  (VObj [("name", VStr "memory_search");
                         ("arguments", VObj [("query", VStr "")])])
                  (VNum 1) initial_world eq_refl eq_refl)).
Defined.

(** A message without a double quote goes out as it is. *)
Lemma escape_quotes_injective_witness :
  includes "a\b 'c'" (str DQUOTE) = false /\ escape_quotes "a\b 'c'" = "a\b 'c'".
Proof.
  split; [reflexivity|].
  exact (proj2 (escape_quotes_injective "a\b 'c'" EmptyString) eq_refl).
Defined.

(** [NOTE] and [note] find the same twelve lines. *)
Lemma search_ignores_query_case_witness :
  toLowerCase (demo_host (Some demo_memory_long) []) "NOTE"
  = toLowerCase (demo_host (Some demo_memory_long) []) "note"
  /\ fst (searchMemory demo_config (demo_host (Some demo_memory_long) []) (VStr "NOTE")
            initial_world)
     = fst (searchMemory demo_config (demo_host (Some demo_memory_long) []) (VStr "note")
              initial_world).
Proof.
  split; [reflexivity|].
  destruct (search_ignores_query_case demo_config (demo_host (Some demo_memory_long) [])
              "NOTE" "note" initial_world eq_refl) as [Hsame | [Hnone _]].
  - exact Hsame.
  - discriminate Hnone.
Defined.

(** [tools/list] after an [initialize]: the session and the UUID count
    stay. *)
Lemma writers_of_the_state_witness :
  sessions (snd (handleRequest demo_config (demo_host None []) (VStr "tools/list")
                   (VObj []) (VNum 1) one_session)) = sessions one_session
  /\ uuidsDrawn (snd (handleRequest demo_config (demo_host None []) (VStr "tools/list")
                        (VObj []) (VNum 1) one_session)) = 1.
Proof.
  exact (proj1 (writers_of_the_state demo_config (demo_host None []) (VStr "tools/list")
                  (VObj []) (VNum 1) one_session) ltac:(discriminate)).
Defined.

(** The session of an [initialize] outlives a later [tools/call]. *)
Lemma sessions_never_evicted_witness :
  is_Some (sessions one_session !! "uuid-0")
  /\ is_Some (sessions (snd (post_mcp demo_config (demo_host None [Close (Some 0%Z)])
                               (demo_request "s3cret" (tools_call (VNum 2) "ask"
                                                         [("message", VStr "hello")]))
                               one_session)) !! "uuid-0").
Proof.
  assert (Hin : is_Some (sessions one_session !! "uuid-0")).
  { eexists. apply lookup_insert_eq. }
  split; [exact Hin|].
  exact (proj1 (sessions_never_evicted demo_config (demo_host None [Close (Some 0%Z)])
                  (demo_request "s3cret" (tools_call (VNum 2) "ask"
                                            [("message", VStr "hello")]))
                  one_session "uuid-0") Hin).
Defined.

(** An agent that writes and never ends leaves the request unanswered,
    and an identifier without a text ends the handler in an exception. *)
Lemma unanswered_iff_child_never_ends_witness :
  fst (post_mcp demo_config (demo_host None [StdoutData "working"; StderrData "still"])
         (demo_request "s3cret" (tools_call (VNum 2) "sessions_status" []))
         initial_world) = Pending
  /\ exists e,
       fst (post_mcp demo_config (demo_host None []) bad_version_unformattable_id
              initial_world) = Throw e.
Proof.
  split.
  - apply (proj2 (proj1 (unanswered_iff_child_never_ends demo_config
                    (demo_host None [StdoutData "working"; StderrData "still"])
                    (demo_request "s3cret" (tools_call (VNum 2) "sessions_status" []))
                    initial_world))).
    exists LIST_ARGV. split; reflexivity.
  - apply (proj2 (proj2 (unanswered_iff_child_never_ends demo_config (demo_host None [])
                    bad_version_unformattable_id initial_world))).
    split; [reflexivity|]. right. right. right. reflexivity.
Defined.

(** Two periods, the client leaves, a third period: two heartbeats. *)
Lemma sse_heartbeat_witness :
  sse_written (sse_run [IntervalElapsed; IntervalElapsed; RequestClosed; IntervalElapsed]
                 (get_mcp_handler fresh_stream))
  = [KEEPALIVE; KEEPALIVE]
  /\ sse_keepAlive (sse_run [IntervalElapsed; IntervalElapsed; RequestClosed; IntervalElapsed]
                      (get_mcp_handler fresh_stream)) = None.
Proof.
  destruct (sse_heartbeat [IntervalElapsed; IntervalElapsed; RequestClosed; IntervalElapsed])
    as (Hw & Hclosed & _).
  split; [exact Hw|]. apply Hclosed. right. right. left. reflexivity.
Defined.

(** [sessions_status] is served and [weather] is not. *)
Lemma advertised_iff_served_witness :
  fst (handleRequest demo_config (demo_host None []) (VStr "tools/call")
         (VObj [("name", VStr "weather")]) (VNum 1) initial_world)
  = Return (tool_error (VNum 1) "Error: Unknown tool: weather").
Proof.
  apply (proj2 (advertised_iff_served demo_config (demo_host None []) "weather"
                  (VNum 1) initial_world)).
  intros [H|[H|[H|[]]]]; discriminate H.
Defined.

(** Two sessions after two [initialize], each with its own version. *)
Lemma two_initializations_witness :
  sessions (snd (handleRequest demo_config (demo_host None []) (VStr "initialize")
                   (VObj [("protocolVersion", VStr "2024-11-05")]) (VNum 1) one_session))
    !! "uuid-0"
  = Some (VObj [("initialized", VBool true);
                ("protocolVersion", VStr "2025-06-18");
                ("clientInfo", VUndefined)]).
Proof.
  destruct (two_initializations demo_config (demo_host None [])
              (VObj [("protocolVersion", VStr "2025-06-18")])
              (VObj [("protocolVersion", VStr "2024-11-05")])
              (VNum 0) (VNum 1) initial_world)
    as (r1 & r2 & s1 & s2 & _ & _ & _ & _ & _ & Hfirst & _ & -> & ->).
  apply Hfirst. discriminate.
Defined.
